(** * golix.cipher: identities and ciphersuites of the Golix protocol

    A shallow embedding of [src/golix/cipher.py].  Python objects become
    records, dictionaries become [gmap]s, exceptions become the error side
    of a [result], and the one object that the code mutates after handing
    it out (the unpacked GARQ envelope) lives in an explicit heap. *)

From Stdlib Require Import ZArith NArith List Bool Lia.
From Stdlib Require Import Strings.Byte.
From stdpp Require Import gmap strings list.

(** ** Bytes *)

Abbreviation bytes := (list byte).

#[global] Instance byte_eq_dec : EqDecision byte := Byte.byte_eq_dec.

(** [a ^ b] on two Python byte values, bit by bit. *)
Definition byte_xor (a b : byte) : byte :=
  let '(a0, (a1, (a2, (a3, (a4, (a5, (a6, a7))))))) := Byte.to_bits a in
  let '(b0, (b1, (b2, (b3, (b4, (b5, (b6, b7))))))) := Byte.to_bits b in
  Byte.of_bits (xorb a0 b0, (xorb a1 b1, (xorb a2 b2, (xorb a3 b3,
               (xorb a4 b4, (xorb a5 b5, (xorb a6 b6, xorb a7 b7))))))).

(** [bytes([a ^ b for a, b in zip(x, y)])]: [zip] stops at the shorter
    argument. *)
Fixpoint xor_bytes (x y : bytes) : bytes :=
  match x, y with
  | a :: x', b :: y' => byte_xor a b :: xor_bytes x' y'
  | _, _ => []
  end.

(** [int.from_bytes(b, byteorder='big')]. *)
Definition int_from_bytes_big (b : bytes) : N :=
  fold_left (fun acc x => (acc * 256 + Byte.to_N x)%N) b 0%N.

Definition byte_of_N (n : N) : byte :=
  match Byte.of_N (n mod 256)%N with
  | Some b => b
  | None => x00
  end.

(** The [len] low-order bytes of [n], least significant first. *)
Fixpoint N_to_bytes_little (len : nat) (n : N) : bytes :=
  match len with
  | O => []
  | S len' => byte_of_N n :: N_to_bytes_little len' (n / 256)%N
  end.

(** A [len]-byte big-endian block holding [n] modulo [256^len]. *)
Definition N_to_bytes_big (len : nat) (n : N) : bytes :=
  rev (N_to_bytes_little len n).

Definition bytes_eqb (x y : bytes) : bool := bool_decide (x = y).

(** ** Exceptions and results *)

Inductive exn :=
| ParseError        (* smartyparse.ParseError *)
| SecurityError     (* golix.utils.SecurityError *)
| TypeError
| ValueError
| KeyError
| AttributeError
| RuntimeError
| OverflowError.

Inductive result (A : Type) :=
| Ok (a : A)
| Raise (e : exn).
Arguments Ok {A} a.
Arguments Raise {A} e.

Declare Scope result_scope.
Delimit Scope result_scope with result.
Bind Scope result_scope with result.

Definition rbind {A B} (r : result A) (k : A -> result B) : result B :=
  match r with
  | Ok a => k a
  | Raise e => Raise e
  end.

Arguments rbind {A B} r%_result k%_result.

(** [try: r  except (e1, e2, ...) : raise e'] *)
Definition reraise {A} (caught : exn -> bool) (e' : exn) (r : result A)
  : result A :=
  match r with
  | Ok a => Ok a
  | Raise e => if caught e then Raise e' else Raise e
  end.

Arguments reraise {A} caught e' r%_result.

Definition is_ParseError (e : exn) : bool :=
  match e with ParseError => true | _ => false end.
Definition is_ValueError (e : exn) : bool :=
  match e with ValueError => true | _ => false end.
Definition is_KeyError_or_TypeError (e : exn) : bool :=
  match e with KeyError | TypeError => true | _ => false end.
Definition is_AttributeError (e : exn) : bool :=
  match e with AttributeError => true | _ => false end.

Notation "x <- r ;; k" := (rbind r%result (fun x => k%result))
  (at level 100, r at next level, right associativity) : result_scope.

(** ** Python values of the protocol layer *)

(** An address digest tagged with its address algorithm
    ([golix.utils.Guid]). *)
Record Guid := { algo : Z; address : bytes }.

(** [golix.utils.Secret]: key and seed tagged with a ciphersuite id.
    [FirstPersonIdentity0.new_secret] passes [seed=None]. *)
Record Secret := { cipher : Z; key : bytes; seed : option bytes }.

(** Key objects found in a key bundle. *)
Inductive keyobj :=
| KBytes (b : bytes)               (* raw bytes, e.g. [_dummy_pubkey] *)
| KRsa (n e : N) (d : option N)    (* Crypto.PublicKey.RSA; [d] for a private key *)
| KEcdhPrivate (sk : bytes)        (* donna25519.PrivateKey *)
| KEcdhPublic (pk : bytes).        (* donna25519.PublicKey *)

(** The [data] argument of the symmetric cipher. *)
Inductive pydata :=
| DBytes (b : bytes)        (* a [bytes] object *)
| DByteArray (b : bytes)    (* another buffer: bytearray, memoryview *)
| DInt (z : Z)
| DNone.

(** The two concrete ciphersuite classes. *)
Inductive suite := CS0 | CS1.

Definition _ciphersuite (cls : suite) : Z :=
  match cls with CS0 => 0 | CS1 => 1 end.

(** State set by [_IdentityBase.__init__]. *)
Record IdentityBase := {
  _author_guid : Guid;
  _signature_key : keyobj;
  _encryption_key : keyobj;
  _exchange_key : keyobj
}.

(** An instance of [ThirdPersonIdentity0] or [ThirdPersonIdentity1];
    [packed] is only set by [from_keys]. *)
Record ThirdPerson := {
  tp_cls : suite;
  tp_base : IdentityBase;
  packed : option bytes
}.

(** An instance of [FirstPersonIdentity0] or [FirstPersonIdentity1];
    [_third_party] is an attribute that may be unset. *)
Record FirstPerson := {
  fp_cls : suite;
  address_algo : Z;
  fp_base : IdentityBase;
  _third_party : option ThirdPerson
}.

(** An unpacked GEOC. *)
Module GEOC.
Record t := {
  author : Guid;
  payload : pydata;
  guid : Guid;
  signature : bytes
}.
End GEOC.

(** [AsymHandshake], [AsymAck], [AsymNak] of [golix.utils]. *)
Inductive AsymRecord :=
| AsymHandshake (author target : Guid) (secret : Secret)
| AsymAck (author target : Guid) (status : Z)
| AsymNak (author target : Guid) (status : Z).

Definition record_author (r : AsymRecord) : Guid :=
  match r with
  | AsymHandshake a _ _ | AsymAck a _ _ | AsymNak a _ _ => a
  end.

(** An unpacked GARQ; [unpack_request] adds the attribute [_plaintext],
    [receive_request] deletes it. *)
Module GARQ.
Record t := {
  recipient : Guid;
  payload : bytes;
  guid : Guid;
  signature : bytes;
  _plaintext : option AsymRecord
}.
Definition set_plaintext (o : t) (p : option AsymRecord) : t :=
  {| recipient := recipient o; payload := payload o; guid := guid o;
     signature := signature o; _plaintext := p |}.
End GARQ.

(** A reference to a GARQ object on the heap. *)
Abbreviation loc := nat.

(** Arguments whose class the code inspects with [isinstance]. *)
Inductive pyval :=
| PNone
| PBytes (b : bytes)
| PSecret (s : Secret)
| PThird (t : ThirdPerson)
| PGEOC (g : GEOC.t)
| PGARQ (l : loc).

(** A key bundle argument: a dict, or [None]. *)
Abbreviation pydict := (option (gmap string keyobj)).

(** [keys[k]] *)
Definition getitem (keys : pydict) (k : string) : result keyobj :=
  match keys with
  | None => Raise TypeError
  | Some d => match d !! k with
              | Some v => Ok v
              | None => Raise KeyError
              end
  end.

(** [bytes(data)] *)
Definition py_bytes (data : pydata) : result bytes :=
  match data with
  | DBytes b | DByteArray b => Ok b
  | DInt z => if (z <? 0)%Z then Raise ValueError
              else Ok (repeat x00 (Z.to_nat z))
  | DNone => Raise TypeError
  end.

(** [int.to_bytes(n, length=len, byteorder='big')] *)
Definition int_to_bytes_big (n : N) (len : nat) : result bytes :=
  if (n <? 256 ^ N.of_nat len)%N then Ok (N_to_bytes_big len n)
  else Raise OverflowError.

(** ** Ghost trace, heap and the method monad *)

Inductive record_kind :=
  K_GEOC | K_GARQ | K_GARQHandshake | K_GARQAck | K_GARQNak.

(** One entry per call that leaves [_FirstPersonBase]: the ciphersuite
    methods and the container services.  The trace is ghost state; no
    method reads it. *)
Inductive event :=
| Call_encrypt (secret : pyval) (data : pydata)
| Call_decrypt (secret : pyval) (data : pydata)
| Call_sign (data : bytes)
| Call_verify (public : pyval) (signature data : bytes)
| Call_decrypt_asym (data : bytes)
| Call_derive_shared (partner : pyval)
| Call_verify_mac (key mac data : bytes)
| Call_pack (k : record_kind)
| Call_pack_signature (k : record_kind) (signature : bytes)
| Call_unpack (k : record_kind) (data : bytes).

Record state := {
  heap : list GARQ.t;      (* GARQ objects, addressed by position *)
  trace : list event;      (* calls made so far, oldest first *)
  draws : nat              (* position in the entropy stream *)
}.

Definition M (A : Type) : Type := state -> result A * state.

Declare Scope M_scope.
Delimit Scope M_scope with M.
Bind Scope M_scope with M.

Definition ret {A} (a : A) : M A := fun st => (Ok a, st).
Definition raise {A} (e : exn) : M A := fun st => (Raise e, st).
Definition bind {A B} (m : M A) (k : A -> M B) : M B :=
  fun st => match m st with
            | (Ok a, st') => k a st'
            | (Raise e, st') => (Raise e, st')
            end.

Arguments bind {A B} m%_M k%_M.

(** Run a pure call [r] and record it. *)
Definition call {A} (ev : event) (r : result A) : M A :=
  fun st => (r, {| heap := heap st; trace := trace st ++ [ev];
                   draws := draws st |}).

Definition lift {A} (r : result A) : M A := fun st => (r, st).

(** Record a call of a method that runs in the state. *)
Definition call_in {A} (ev : event) (m : M A) : M A :=
  fun st => m {| heap := heap st; trace := trace st ++ [ev];
                 draws := draws st |}.

Arguments call {A} ev r%_result.
Arguments call_in {A} ev m%_M.
Arguments lift {A} r%_result.

(** [try: body  except E: handler], for the exceptions selected by
    [caught]. *)
Definition try_except {A} (body : M A) (caught : exn -> bool)
  (handler : M A) : M A :=
  fun st => match body st with
            | (Ok a, st') => (Ok a, st')
            | (Raise e, st') =>
                if caught e then handler st' else (Raise e, st')
            end.

Arguments try_except {A} body%_M caught handler%_M.

(** A new GARQ object. *)
Definition alloc (o : GARQ.t) : M loc :=
  fun st => (Ok (length (heap st)),
             {| heap := heap st ++ [o]; trace := trace st;
                draws := draws st |}).

(** [garq._plaintext = p] and [del garq._plaintext]. *)
Definition store_plaintext (l : loc) (p : option AsymRecord) : M unit :=
  fun st => (Ok tt,
             {| heap := alter (fun o => GARQ.set_plaintext o p) l (heap st);
                trace := trace st; draws := draws st |}).

Notation "x <- m ;; k" := (bind m%M (fun x => k%M))
  (at level 100, m at next level, right associativity) : M_scope.

(** ** What the module imports

    [golix.utils] and [golix._getlow] (constants and the container
    services) and the primitives of PyCryptodome and donna25519 are taken
    as parameters.  A service returns a [result]: it may raise. *)

Class External := {
  (* golix.utils *)
  ADDRESS_ALGOS : list Z;
  _dummy_asym : bytes;
  _dummy_signature : bytes;
  _dummy_pubkey : bytes;
  (* golix._getlow: [X(...).pack(cipher, address_algo)] gives [guid] and
     [packed]; [pack_signature] gives the final [packed] *)
  GIDC_pack : keyobj -> keyobj -> keyobj -> Z -> Z -> result (Guid * bytes);
  GEOC_pack : Guid -> bytes -> Z -> Z -> result (Guid * bytes);
  GEOC_pack_signature : bytes -> bytes -> result bytes;
  GEOC_unpack : bytes -> result GEOC.t;
  GARQ_unpack : bytes -> result GARQ.t;
  GARQHandshake_unpack : bytes -> result (Guid * Guid * Secret);
  GARQAck_unpack : bytes -> result (Guid * Guid * Z);
  GARQNak_unpack : bytes -> result (Guid * Guid * Z);
  (* Crypto.Cipher.AES: one block under a key, blocks as 128-bit numbers *)
  AES_block : bytes -> N -> N;
  (* Crypto.Signature.pss over a precomputed digest; signing is salted:
     key, digest, salt *)
  PSS_sign : keyobj -> bytes -> bytes -> result bytes;
  PSS_verify : keyobj -> bytes -> bytes -> result unit;
  (* Crypto.Cipher.PKCS1_OAEP *)
  OAEP_decrypt : keyobj -> bytes -> result bytes;
  (* donna25519 *)
  get_public : bytes -> bytes;
  do_exchange : bytes -> keyobj -> result bytes;
  (* Crypto.Protocol.KDF.HKDF and Crypto.Hash.HMAC with SHA512 *)
  HKDF_SHA512 : bytes -> nat -> bytes -> bytes;
  HMAC_SHA512 : bytes -> bytes -> bytes;
  (* randomness: the operating system's stream, and RSA.generate(bits)
     reading it at a position *)
  entropy : nat -> byte;
  RSA_generate : Z -> nat -> keyobj
}.

#[global] Instance suite_eq_dec : EqDecision suite.
Proof. solve_decision. Defined.

Definition SHA512_digest_size : nat := 64.

(** Signature constants. *)
Definition _PSS_SALT_LENGTH : nat := SHA512_digest_size.

Definition DEFAULT_ADDRESSER : Z := 1.
Definition DEFAULT_CIPHER : Z := 1.

(** The [address_algo] argument: the string ['default'] or an id. *)
Inductive algo_arg := Default | Algo (a : Z).

(** The bytes of a literal. *)
Definition b (s : string) : bytes := String.list_byte_of_string s.

Section Cipher.
Context `{E : External}.

(** *** PyCryptodome's AES in CTR mode *)

(** A cipher object of [AES.new(key, AES.MODE_CTR, counter=ctr)] with
    [ctr = Counter.new(nbits=128, initial_value=v)]. *)
Record CtrMode := { ctr_key : bytes; ctr_initial : N }.

Definition AES_key_size_ok (len : nat) : bool :=
  (len =? 16)%nat || (len =? 24)%nat || (len =? 32)%nat.

(** The key must have an AES length and the counter block must be the
    cipher's 16 bytes. *)
Definition AES_new_CTR (key : bytes) (initial_value : N) : result CtrMode :=
  if negb (AES_key_size_ok (length key)) then Raise ValueError
  else if (2 ^ 128 <=? initial_value)%N then Raise ValueError
  else Ok {| ctr_key := key; ctr_initial := initial_value |}.

(** Block [i] of the key stream: the encrypted counter, which wraps
    around at [2^128]. *)
Definition keystream_block (c : CtrMode) (i : nat) : bytes :=
  N_to_bytes_big 16
    (AES_block (ctr_key c) ((ctr_initial c + N.of_nat i) mod 2 ^ 128)%N).

Definition keystream (c : CtrMode) (nblocks : nat) : bytes :=
  flat_map (keystream_block c) (seq 0 nblocks).

Definition blocks_for (len : nat) : nat := (len + 15) / 16.

(** [cipher.encrypt(plaintext)] *)
Definition CtrMode_encrypt (c : CtrMode) (plaintext : bytes) : bytes :=
  xor_bytes plaintext (keystream c (blocks_for (length plaintext))).

(** [cipher.decrypt(ciphertext)] *)
Definition CtrMode_decrypt (c : CtrMode) (ciphertext : bytes) : bytes :=
  xor_bytes ciphertext (keystream c (blocks_for (length ciphertext))).

(** *** _FrozenHash *)

(** [_FrozenSHA512(data)]: the digest is the data itself. *)
Definition _FrozenSHA512 (data : bytes) : result bytes :=
  if negb (length data =? SHA512_digest_size)%nat then Raise ValueError
  else Ok data.

(** *** _IdentityBase *)

Definition IdentityBase_init (keys : pydict) (author_guid : Guid)
  : result IdentityBase :=
  reraise is_KeyError_or_TypeError RuntimeError
    (sk <- getitem keys "signature" ;;
     ek <- getitem keys "encryption" ;;
     xk <- getitem keys "exchange" ;;
     Ok {| _author_guid := author_guid; _signature_key := sk;
           _encryption_key := ek; _exchange_key := xk |}).

Definition DEFAULT_ADDRESS_ALGO : Z := DEFAULT_ADDRESSER.

Definition _dispatch_address (address_algo : algo_arg) : result Z :=
  match address_algo with
  | Default => Ok DEFAULT_ADDRESS_ALGO
  | Algo a => if bool_decide (a ∈ ADDRESS_ALGOS) then Ok a
              else Raise ValueError
  end.

Definition _typecheck_secret (cls : suite) (secret : pyval) : bool :=
  match secret with
  | PSecret s => if negb (cipher s =? _ciphersuite cls)%Z then false else true
  | _ => false
  end.

(** *** Attribute access on arguments *)

Definition attr_seed (secret : pyval) : result (option bytes) :=
  match secret with PSecret s => Ok (seed s) | _ => Raise AttributeError end.
Definition attr_key (secret : pyval) : result bytes :=
  match secret with PSecret s => Ok (key s) | _ => Raise AttributeError end.
Definition attr_base (obj : pyval) : result IdentityBase :=
  match obj with PThird t => Ok (tp_base t) | _ => Raise AttributeError end.
Definition attr_n (k : keyobj) : result N :=
  match k with KRsa n _ _ => Ok n | _ => Raise AttributeError end.
Definition attr_public (k : keyobj) : result bytes :=
  match k with KEcdhPublic pk => Ok pk | _ => Raise AttributeError end.

(** [key.publickey()] and [key.get_public()] *)
Definition publickey (k : keyobj) : result keyobj :=
  match k with KRsa n e _ => Ok (KRsa n e None) | _ => Raise AttributeError end.
Definition key_get_public (k : keyobj) : result keyobj :=
  match k with
  | KEcdhPrivate sk => Ok (KEcdhPublic (get_public sk))
  | _ => Raise AttributeError
  end.

(** *** _ThirdPersonBase *)

Definition bundle (sk ek xk : keyobj) : gmap string keyobj :=
  <["exchange" := xk]> (<["encryption" := ek]> (<["signature" := sk]> ∅)).

Definition _pack_keys (cls : suite) (keys : pydict) : result pydict :=
  match cls with
  | CS0 => Ok keys
  | CS1 =>
      sk <- getitem keys "signature" ;;
      sn <- attr_n sk ;;
      sb <- int_to_bytes_big sn 512 ;;
      ek <- getitem keys "encryption" ;;
      en <- attr_n ek ;;
      eb <- int_to_bytes_big en 512 ;;
      xk <- getitem keys "exchange" ;;
      xb <- attr_public xk ;;
      Ok (Some (bundle (KBytes sb) (KBytes eb) (KBytes xb)))
  end.

Definition from_keys (cls : suite) (keys : pydict) (address_algo : Z)
  : result ThirdPerson :=
  packed_keys <- reraise is_KeyError_or_TypeError RuntimeError
                   (_pack_keys cls keys) ;;
  sk <- getitem packed_keys "signature" ;;
  ek <- getitem packed_keys "encryption" ;;
  xk <- getitem packed_keys "exchange" ;;
  gidc <- GIDC_pack sk ek xk (_ciphersuite cls) address_algo ;;
  self <- IdentityBase_init keys (fst gidc) ;;
  Ok {| tp_cls := cls; tp_base := self; packed := Some (snd gidc) |}.

(** *** Key generation *)

(** Read from the entropy stream: [f] sees the current position, which
    then advances by [n]. *)
Definition draw {A} (f : nat -> A) (n : nat) : M A :=
  fun st => (Ok (f (draws st)),
             {| heap := heap st; trace := trace st;
                draws := draws st + n |}).

(** [get_random_bytes(n)] *)
Definition get_random_bytes (n : nat) : M bytes :=
  draw (fun pos => map entropy (seq pos n)) n.

Definition _generate_keys (cls : suite) : M (gmap string keyobj) :=
  match cls with
  | CS0 =>
      ret (bundle (KBytes _dummy_pubkey) (KBytes _dummy_pubkey)
                  (KBytes _dummy_pubkey))
  | CS1 =>
      sk <- draw (RSA_generate 4096) 1 ;;
      ek <- draw (RSA_generate 4096) 1 ;;
      xs <- get_random_bytes 32 ;;
      ret (bundle sk ek (KEcdhPrivate xs))
  end.

Definition _3PID (cls : suite) : suite :=
  match cls with CS0 => CS0 | CS1 => CS1 end.

Definition _generate_third_person (cls : suite) (keys : gmap string keyobj)
  (address_algo : Z) : result ThirdPerson :=
  match cls with
  | CS0 =>
      from_keys (_3PID cls)
        (Some (bundle (KBytes _dummy_pubkey) (KBytes _dummy_pubkey)
                      (KBytes _dummy_pubkey)))
        address_algo
  | CS1 =>
      sk <- getitem (Some keys) "signature" ;;
      spub <- publickey sk ;;
      ek <- getitem (Some keys) "encryption" ;;
      epub <- publickey ek ;;
      xk <- getitem (Some keys) "exchange" ;;
      xpub <- key_get_public xk ;;
      from_keys (_3PID cls) (Some (bundle spub epub xpub)) address_algo
  end.

Definition new_secret (cls : suite) : M Secret :=
  match cls with
  | CS0 =>
      ret {| cipher := _ciphersuite cls; key := repeat x00 32; seed := None |}
  | CS1 =>
      k <- get_random_bytes 32 ;;
      nonce <- get_random_bytes 16 ;;
      ret {| cipher := _ciphersuite cls; key := k; seed := Some nonce |}
  end.

(** *** _FirstPersonBase: construction *)

Definition FirstPerson_init (cls : suite) (keys : pydict)
  (author_guid : option Guid) (address_algo : algo_arg) : M FirstPerson :=
  algo <- lift (_dispatch_address address_algo) ;;
  match keys, author_guid with
  | Some _, Some g =>
      (* Load an existing identity *)
      base <- lift (IdentityBase_init keys g) ;;
      ret {| fp_cls := cls; address_algo := algo; fp_base := base;
             _third_party := None |}
  | Some _, None | None, Some _ =>
      (* Catch any improper declaration *)
      raise TypeError
  | None, None =>
      (* Generate a new identity *)
      keys <- _generate_keys cls ;;
      third <- lift (_generate_third_person cls keys algo) ;;
      base <- lift (IdentityBase_init (Some keys)
                      (_author_guid (tp_base third))) ;;
      ret {| fp_cls := cls; address_algo := algo; fp_base := base;
             _third_party := Some third |}
  end.

(** The properties [author_guid], [ciphersuite] and [third_party]. *)
Definition author_guid (self : FirstPerson) : Guid :=
  _author_guid (fp_base self).

Definition ciphersuite (self : FirstPerson) : Z := _ciphersuite (fp_cls self).

Definition third_party (self : FirstPerson) : result ThirdPerson :=
  match _third_party self with
  | Some t => Ok t
  | None => Raise AttributeError
  end.

Definition _typecheck_thirdparty (cls : suite) (obj : pyval) : result bool :=
  match obj with
  | PThird t => if negb (bool_decide (tp_cls t = _3PID cls))
                then Raise TypeError else Ok true
  | _ => Raise TypeError
  end.

(** *** The ciphersuite methods *)

(** The signer draws a fresh salt of [_PSS_SALT_LENGTH] bytes for every
    signature. *)
Definition _sign (self : FirstPerson) (data : bytes) : M bytes :=
  match fp_cls self with
  | CS0 => ret _dummy_signature
  | CS1 =>
      h <- lift (_FrozenSHA512 data) ;;
      salt <- get_random_bytes _PSS_SALT_LENGTH ;;
      lift (PSS_sign (_signature_key (fp_base self)) h salt)
  end.

Definition _verify (self : FirstPerson) (public : pyval)
  (signature data : bytes) : result bool :=
  match fp_cls self with
  | CS0 =>
      _ <- _typecheck_thirdparty (fp_cls self) public ;;
      Ok true
  | CS1 =>
      _ <- _typecheck_thirdparty (fp_cls self) public ;;
      h <- _FrozenSHA512 data ;;
      pub <- attr_base public ;;
      _ <- reraise is_ValueError SecurityError
             (PSS_verify (_signature_key pub) h signature) ;;
      Ok true
  end.

Definition _decrypt_asym (self : FirstPerson) (data : bytes) : result bytes :=
  match fp_cls self with
  | CS0 => Ok _dummy_asym
  | CS1 => OAEP_decrypt (_encryption_key (fp_base self)) data
  end.

(** The preamble shared by [FirstPersonIdentity1._encrypt] and
    [._decrypt]: coerce the data, read the nonce, build the cipher. *)
Definition coerce_bytes (data : pydata) : result bytes :=
  match data with
  | DBytes x => Ok x
  | _ => py_bytes data
  end.

Definition seed_to_int (s : option bytes) : result N :=
  match s with
  | Some x => Ok (int_from_bytes_big x)
  | None => Raise TypeError
  end.

Definition _encrypt (cls : suite) (secret : pyval) (data : pydata)
  : result bytes :=
  match cls with
  | CS0 => Ok (b "[[ PLACEHOLDER ENCRYPTED SYMMETRIC MESSAGE. Hello, world? ]]")
  | CS1 =>
      data <- coerce_bytes data ;;
      s <- attr_seed secret ;;
      ctr_start <- seed_to_int s ;;
      k <- attr_key secret ;;
      cipher <- AES_new_CTR k ctr_start ;;
      Ok (CtrMode_encrypt cipher data)
  end.

Definition _decrypt (cls : suite) (secret : pyval) (data : pydata)
  : result bytes :=
  match cls with
  | CS0 => Ok (b "[[ PLACEHOLDER DECRYPTED SYMMETRIC MESSAGE. Hello world! ]]")
  | CS1 =>
      data <- coerce_bytes data ;;
      s <- attr_seed secret ;;
      ctr_start <- seed_to_int s ;;
      k <- attr_key secret ;;
      cipher <- AES_new_CTR k ctr_start ;;
      Ok (CtrMode_decrypt cipher data)
  end.

(** [bytes([a ^ b for a, b in zip(my_hash, their_hash)])] *)
Definition shared_salt (my_hash their_hash : bytes) : bytes :=
  xor_bytes my_hash their_hash.

Definition _derive_shared (self : FirstPerson) (partner : pyval)
  : result bytes :=
  match fp_cls self with
  | CS0 =>
      _ <- _typecheck_thirdparty (fp_cls self) partner ;;
      Ok (b "[[ Placeholder shared secret ]]")
  | CS1 =>
      sk <- match _exchange_key (fp_base self) with
            | KEcdhPrivate sk => Ok sk
            | _ => Raise AttributeError
            end ;;
      p <- attr_base partner ;;
      ecdh <- do_exchange sk (_exchange_key p) ;;
      let my_hash := address (author_guid self) in
      let their_hash := address (_author_guid p) in
      let salt := shared_salt my_hash their_hash in
      Ok (HKDF_SHA512 ecdh SHA512_digest_size salt)
  end.

Definition _verify_mac (cls : suite) (key mac data : bytes) : result bool :=
  match cls with
  | CS0 => Ok true
  | CS1 =>
      _ <- reraise is_ValueError SecurityError
             (if bytes_eqb (HMAC_SHA512 key data) mac then Ok tt
              else Raise ValueError) ;;
      Ok true
  end.

(** *** _FirstPersonBase: protocol operations *)

Definition make_object (self : FirstPerson) (secret : pyval)
  (plaintext : pydata) : M (Guid * bytes) :=
  if negb (_typecheck_secret (fp_cls self) secret) then raise TypeError
  else
    payload <- call (Call_encrypt secret plaintext)
                 (_encrypt (fp_cls self) secret plaintext) ;;
    geoc <- call (Call_pack K_GEOC)
              (GEOC_pack (author_guid self) payload (ciphersuite self)
                 (address_algo self)) ;;
    signature <- call_in (Call_sign (address (fst geoc)))
                   (_sign self (address (fst geoc))) ;;
    packed <- call (Call_pack_signature K_GEOC signature)
                (GEOC_pack_signature (snd geoc) signature) ;;
    ret (fst geoc, packed).

(** The three nested [try] blocks of [unpack_request]. *)
Definition parse_request (plaintext : bytes) : M AsymRecord :=
  try_except
    (unpacked <- call (Call_unpack K_GARQHandshake plaintext)
                   (GARQHandshake_unpack plaintext) ;;
     ret (AsymHandshake (fst (fst unpacked)) (snd (fst unpacked))
            (snd unpacked)))
    is_ParseError
    (try_except
       (unpacked <- call (Call_unpack K_GARQAck plaintext)
                      (GARQAck_unpack plaintext) ;;
        ret (AsymAck (fst (fst unpacked)) (snd (fst unpacked))
               (snd unpacked)))
       is_ParseError
       (try_except
          (unpacked <- call (Call_unpack K_GARQNak plaintext)
                         (GARQNak_unpack plaintext) ;;
           ret (AsymNak (fst (fst unpacked)) (snd (fst unpacked))
                  (snd unpacked)))
          is_ParseError
          (raise SecurityError))).

Definition unpack_request (self : FirstPerson) (packed : bytes)
  : M (Guid * loc) :=
  o <- call (Call_unpack K_GARQ packed) (GARQ_unpack packed) ;;
  garq <- alloc o ;;
  plaintext <- call (Call_decrypt_asym (GARQ.payload o))
                 (_decrypt_asym self (GARQ.payload o)) ;;
  request <- parse_request plaintext ;;
  _ <- store_plaintext garq (Some request) ;;
  ret (record_author request, garq).

(** [isinstance(request, GARQ)]: a reference that is not allocated
    denotes no object. *)
Definition as_GARQ (request : pyval) : M (loc * GARQ.t) :=
  fun st =>
    match request with
    | PGARQ l => match heap st !! l with
                 | Some o => (Ok (l, o), st)
                 | None => (Raise TypeError, st)
                 end
    | _ => (Raise TypeError, st)
    end.

Definition receive_request (self : FirstPerson) (public request : pyval)
  : M AsymRecord :=
  _ <- lift (_typecheck_thirdparty (fp_cls self) public) ;;
  r <- as_GARQ request ;;
  plaintext <- lift (reraise is_AttributeError TypeError
                       (match GARQ._plaintext (snd r) with
                        | Some p => Ok p
                        | None => Raise AttributeError
                        end)) ;;
  k <- call (Call_derive_shared public) (_derive_shared self public) ;;
  _ <- call (Call_verify_mac k (GARQ.signature (snd r))
               (address (GARQ.guid (snd r))))
         (_verify_mac (fp_cls self) k (GARQ.signature (snd r))
            (address (GARQ.guid (snd r)))) ;;
  _ <- store_plaintext (fst r) None ;;
  ret plaintext.

Definition unpack_object (self : FirstPerson) (packed : bytes)
  : M (Guid * GEOC.t) :=
  geoc <- call (Call_unpack K_GEOC packed) (GEOC_unpack packed) ;;
  ret (GEOC.author geoc, geoc).

Definition receive_object (self : FirstPerson) (public secret obj : pyval)
  : M (Guid * bytes) :=
  match obj with
  | PGEOC g =>
      let signature := GEOC.signature g in
      _ <- call (Call_verify public signature (address (GEOC.guid g)))
             (_verify self public signature (address (GEOC.guid g))) ;;
      plaintext <- call (Call_decrypt secret (GEOC.payload g))
                     (_decrypt (fp_cls self) secret (GEOC.payload g)) ;;
      ret (GEOC.guid g, plaintext)
  | _ => raise TypeError
  end.
End Cipher.

(** ** Vocabulary of the statements *)

Section Vocabulary.
Context `{E : External}.

(** A secret that [AES.new] accepts in CTR mode: an AES key length and a
    nonce that fits the 128-bit counter. *)
Definition valid_secret (s : Secret) : bool :=
  AES_key_size_ok (length (key s)) &&
  match seed s with
  | Some nonce => (int_from_bytes_big nonce <? 2 ^ 128)%N
  | None => false
  end.

(** The defining law of a Diffie-Hellman exchange, for donna25519. *)
Definition exchange_commutes : Prop :=
  forall sk1 sk2 : bytes,
    do_exchange sk1 (KEcdhPublic (get_public sk2)) =
    do_exchange sk2 (KEcdhPublic (get_public sk1)).

(** [pub] is the public identity of [self]: same class, same author
    guid, and the public half of the exchange key where the suite has
    one. *)
Definition public_of (self : FirstPerson) (pub : ThirdPerson) : Prop :=
  tp_cls pub = _3PID (fp_cls self) /\
  _author_guid (tp_base pub) = author_guid self /\
  (fp_cls self = CS1 ->
   key_get_public (_exchange_key (fp_base self)) =
   Ok (_exchange_key (tp_base pub))).

(** A key bundle that lacks one of the three roles. *)
Definition missing_role (d : gmap string keyobj) : Prop :=
  d !! "signature" = None \/ d !! "encryption" = None \/
  d !! "exchange" = None.

(** The cascade in the words of the specification: an ordered list of
    candidate parses tried in sequence, stopping at the first success;
    only a parse failure moves on to the next candidate, and when no
    candidate is left the payload is rejected. *)
Fixpoint cascade_outcome (candidates : list (result AsymRecord))
  : result AsymRecord :=
  match candidates with
  | [] => Raise SecurityError
  | Ok r :: _ => Ok r
  | Raise ParseError :: rest => cascade_outcome rest
  | Raise e :: _ => Raise e
  end.

(** How many candidates the cascade looks at. *)
Fixpoint cascade_attempts (candidates : list (result AsymRecord)) : nat :=
  match candidates with
  | [] => 0
  | Raise ParseError :: rest => S (cascade_attempts rest)
  | _ :: _ => 1
  end.

(** The three candidates on a payload, in the order of the source. *)
Definition as_handshake (plaintext : bytes) : result AsymRecord :=
  u <- GARQHandshake_unpack plaintext ;;
  Ok (AsymHandshake (fst (fst u)) (snd (fst u)) (snd u)).
Definition as_ack (plaintext : bytes) : result AsymRecord :=
  u <- GARQAck_unpack plaintext ;;
  Ok (AsymAck (fst (fst u)) (snd (fst u)) (snd u)).
Definition as_nak (plaintext : bytes) : result AsymRecord :=
  u <- GARQNak_unpack plaintext ;;
  Ok (AsymNak (fst (fst u)) (snd (fst u)) (snd u)).

(** The number of calls of [receive_request] on the envelope [l] that
    return, when [calls] are made one after the other. *)
Fixpoint successes (calls : list (FirstPerson * pyval)) (l : loc)
  (st : state) : nat :=
  match calls with
  | [] => 0
  | (self, public) :: rest =>
      match receive_request self public (PGARQ l) st with
      | (Ok _, st') => S (successes rest l st')
      | (Raise _, st') => successes rest l st'
      end
  end.

(** The envelope [l] still carries its cached plaintext. *)
Definition cached (st : state) (l : loc) : option AsymRecord :=
  match heap st !! l with
  | Some o => GARQ._plaintext o
  | None => None
  end.
End Vocabulary.

(** ** A small concrete environment

    Executable stand-ins for the imported services, used to run the model
    on concrete inputs.  The container parsers dispatch on the first byte;
    the exchange is a commutative toy. *)
Module Toy.
Definition digest (x : bytes) : bytes := take 64 (rev x ++ repeat x00 64).

Definition guid_of (a : Z) (x : bytes) : Guid :=
  {| algo := a; address := digest x |}.

Definition key_bytes (k : keyobj) : bytes :=
  match k with
  | KBytes x | KEcdhPrivate x | KEcdhPublic x => x
  | KRsa n _ _ => N_to_bytes_big 4 n
  end.

Definition parse_status (tag : byte) (x : bytes)
  : result (Guid * Guid * Z) :=
  match x with
  | t :: a :: rest =>
      if bool_decide (t = tag)
      then Ok (guid_of 1 [a], guid_of 1 rest, Z.of_nat (length rest))
      else if bool_decide (t = xff) then Raise ValueError
      else Raise ParseError
  | _ => Raise ParseError
  end.

Definition parse_handshake (x : bytes) : result (Guid * Guid * Secret) :=
  match x with
  | t :: a :: rest =>
      if bool_decide (t = x01)
      then Ok (guid_of 1 [a], guid_of 1 rest,
               {| cipher := 1; key := rest; seed := Some [a] |})
      else if bool_decide (t = xfe) then Raise ValueError
      else Raise ParseError
  | _ => Raise ParseError
  end.

Definition parse_garq (x : bytes) : result GARQ.t :=
  match x with
  | [] => Raise ParseError
  | m :: rest =>
      Ok {| GARQ.recipient := guid_of 1 [];
            GARQ.payload := rest;
            GARQ.guid := guid_of 1 rest;
            GARQ.signature := [m];
            GARQ._plaintext := None |}
  end.

(** A packed GEOC is its payload followed by a 128-byte signature. *)
Definition parse_geoc (x : bytes) : result GEOC.t :=
  if (length x <? 128)%nat then Raise ParseError
  else
    let body := take (length x - 128) x in
    Ok {| GEOC.author := guid_of 1 []; GEOC.payload := DByteArray body;
          GEOC.guid := guid_of 1 body;
          GEOC.signature := drop (length x - 128) x |}.

Definition exchange (sk : bytes) (pk : keyobj) : result bytes :=
  match pk with
  | KEcdhPublic p => Ok (xor_bytes sk p)
  | _ => Raise TypeError
  end.

Definition env : External := {|
  ADDRESS_ALGOS := [0; 1]%Z;
  _dummy_asym := [x01; x07; x08];
  _dummy_signature := [x53];
  _dummy_pubkey := [x50];
  GIDC_pack := fun sk ek xk c a =>
    Ok (guid_of a (key_bytes sk ++ key_bytes ek ++ key_bytes xk),
        key_bytes sk ++ key_bytes ek ++ key_bytes xk);
  GEOC_pack := fun author payload c a => Ok (guid_of a payload, payload);
  GEOC_pack_signature := fun body sig => Ok (body ++ sig);
  GEOC_unpack := parse_geoc;
  GARQ_unpack := parse_garq;
  GARQHandshake_unpack := parse_handshake;
  GARQAck_unpack := parse_status x02;
  GARQNak_unpack := parse_status x03;
  AES_block := fun k n => (n * 3 + int_from_bytes_big k)%N;
  PSS_sign := fun k h salt => Ok (h ++ salt);
  PSS_verify := fun k h sig =>
    if bytes_eqb h (take 64 sig) then Ok tt else Raise ValueError;
  OAEP_decrypt := fun k x => Ok x;
  get_public := fun sk => sk;
  do_exchange := exchange;
  HKDF_SHA512 := fun master len salt => take len (master ++ salt);
  HMAC_SHA512 := fun k x => xor_bytes k x;
  entropy := fun pos => byte_of_N (N.of_nat pos);
  RSA_generate := fun bits pos => KRsa (N.of_nat pos + 3) 65537 (Some 1%N)
|}.

Definition st0 : state := {| heap := []; trace := []; draws := 0 |}.

(** The salt of the first signature made from [st0]. *)
Definition salt0 : bytes := map (fun pos => byte_of_N (N.of_nat pos)) (seq 0 64).

(** Three CipherSuite-1 identities and their public identities. *)
Definition base (g : Guid) (x : keyobj) : IdentityBase :=
  {| _author_guid := g; _signature_key := KRsa 7 3 None;
     _encryption_key := KRsa 11 3 None; _exchange_key := x |}.

Definition person (g : Guid) (sk : bytes) : FirstPerson * ThirdPerson :=
  let pub := {| tp_cls := CS1; tp_base := base g (KEcdhPublic sk);
                packed := None |} in
  ({| fp_cls := CS1; address_algo := 1;
      fp_base := base g (KEcdhPrivate sk); _third_party := Some pub |},
   pub).

Definition guid_a : Guid := {| algo := 1; address := repeat x0a 64 |}.
Definition guid_b : Guid := {| algo := 1; address := repeat x0b 64 |}.
Definition guid_c : Guid := {| algo := 1; address := repeat x0c 64 |}.

Definition alice : FirstPerson := fst (person guid_a [x01; x02]).
Definition alice_pub : ThirdPerson := snd (person guid_a [x01; x02]).
Definition bob : FirstPerson := fst (person guid_b [x03; x04]).
Definition bob_pub : ThirdPerson := snd (person guid_b [x03; x04]).
Definition carol_pub : ThirdPerson := snd (person guid_c [x05; x06]).

(** An object whose signature does not start with its address, so that
    the signature scheme of this environment refuses it. *)
Definition geoc_bad : GEOC.t :=
  {| GEOC.author := guid_a; GEOC.payload := DBytes [x68; x69];
     GEOC.guid := guid_of 1 [x68; x69];
     GEOC.signature := xff :: drop 1 (digest [x68; x69]) |}.

Definition secret1 : Secret :=
  {| cipher := 1; key := repeat x01 32; seed := Some [x05; xff] |}.

Definition secret0 : Secret :=
  {| cipher := 0; key := repeat x00 32; seed := None |}.

(** An envelope from alice to bob, as [unpack_request] leaves it: the
    MAC is keyed with the secret the two share. *)
Definition ack : AsymRecord := AsymAck guid_a guid_c 0.

Definition shared_ab : bytes :=
  match _derive_shared (E := env) bob (PThird alice_pub) with
  | Ok k => k
  | Raise _ => []
  end.

Definition shared_bc : bytes :=
  match _derive_shared (E := env) bob (PThird carol_pub) with
  | Ok k => k
  | Raise _ => []
  end.

Definition envelope : GARQ.t :=
  {| GARQ.recipient := guid_b; GARQ.payload := [x02; x0a; x0c];
     GARQ.guid := guid_of 1 [x02; x0a; x0c];
     GARQ.signature :=
       HMAC_SHA512 (External := env) shared_ab (digest [x02; x0a; x0c]);
     GARQ._plaintext := Some ack |}.

Definition st1 : state := {| heap := [envelope]; trace := []; draws := 0 |}.
End Toy.

(** ** Bindings, debindings and outgoing requests

    The services of [golix._getlow] and [golix.utils] that only these
    operations use, and PyCryptodome's OAEP encryptor, which reads the
    entropy stream. *)

Class Packers := {
  (* golix.utils *)
  _dummy_mac : bytes;
  (* golix._getlow: binder/debinder, target, cipher, address_algo *)
  GOBS_pack : Guid -> Guid -> Z -> Z -> result (Guid * bytes);
  GOBS_pack_signature : bytes -> bytes -> result bytes;
  (* binder, target, dynamic_address, history, cipher, address_algo;
     gives [guid], [packed] and [dynamic_address] *)
  GOBD_pack : Guid -> Guid -> option Guid -> option (list Guid) -> Z -> Z ->
              result (Guid * bytes * Guid);
  GOBD_pack_signature : bytes -> bytes -> result bytes;
  GDXX_pack : Guid -> Guid -> Z -> Z -> result (Guid * bytes);
  GDXX_pack_signature : bytes -> bytes -> result bytes;
  (* recipient, payload, cipher, address_algo *)
  GARQ_pack : Guid -> bytes -> Z -> Z -> result (Guid * bytes);
  GARQ_pack_signature : bytes -> bytes -> result bytes;
  (* author, target, secret or status; [pack()] gives [packed] *)
  GARQHandshake_pack : Guid -> Guid -> pyval -> result bytes;
  GARQAck_pack : Guid -> Guid -> Z -> result bytes;
  GARQNak_pack : Guid -> Guid -> Z -> result bytes;
  (* Crypto.Cipher.PKCS1_OAEP: key, message, position in the entropy *)
  OAEP_encrypt : keyobj -> bytes -> nat -> result bytes
}.

Section Outgoing.
Context `{E : External} `{P : Packers}.

Definition _mac (cls : suite) (key data : bytes) : bytes :=
  match cls with
  | CS0 => _dummy_mac
  | CS1 => HMAC_SHA512 key data
  end.

Definition _encrypt_asym (self : FirstPerson) (public : pyval) (data : bytes)
  : M bytes :=
  match fp_cls self with
  | CS0 =>
      _ <- lift (_typecheck_thirdparty (fp_cls self) public) ;;
      ret _dummy_asym
  | CS1 =>
      _ <- lift (_typecheck_thirdparty (fp_cls self) public) ;;
      pub <- lift (attr_base public) ;;
      r <- draw (OAEP_encrypt (_encryption_key pub) data) 1 ;;
      lift r
  end.

Definition make_bind_static (self : FirstPerson) (guid : Guid)
  : M (Guid * bytes) :=
  gobs <- lift (GOBS_pack (author_guid self) guid (ciphersuite self)
                  (address_algo self)) ;;
  signature <- _sign self (address (fst gobs)) ;;
  packed <- lift (GOBS_pack_signature (snd gobs) signature) ;;
  ret (fst gobs, packed).

Definition make_bind_dynamic (self : FirstPerson) (guid : Guid)
  (address_ : option Guid) (history : option (list Guid))
  : M (Guid * bytes * Guid) :=
  gobd <- lift (GOBD_pack (author_guid self) guid address_ history
                  (ciphersuite self) (address_algo self)) ;;
  signature <- _sign self (address (fst (fst gobd))) ;;
  packed <- lift (GOBD_pack_signature (snd (fst gobd)) signature) ;;
  ret (fst (fst gobd), packed, snd gobd).

Definition make_debind (self : FirstPerson) (guid : Guid)
  : M (Guid * bytes) :=
  gdxx <- lift (GDXX_pack (author_guid self) guid (ciphersuite self)
                  (address_algo self)) ;;
  signature <- _sign self (address (fst gdxx)) ;;
  packed <- lift (GDXX_pack_signature (snd gdxx) signature) ;;
  ret (fst gdxx, packed).

Definition _make_asym (self : FirstPerson) (recipient : pyval)
  (plaintext : bytes) : M (Guid * bytes) :=
  payload <- _encrypt_asym self recipient plaintext ;;
  r <- lift (attr_base recipient) ;;
  garq <- lift (GARQ_pack (_author_guid r) payload (ciphersuite self)
                  (address_algo self)) ;;
  k <- lift (_derive_shared self recipient) ;;
  packed <- lift (GARQ_pack_signature (snd garq)
                    (_mac (fp_cls self) k (address (fst garq)))) ;;
  ret (fst garq, packed).

Definition make_request (self : FirstPerson) (secret : pyval) (target : Guid)
  (recipient : pyval) : M (Guid * bytes) :=
  _ <- lift (_typecheck_thirdparty (fp_cls self) recipient) ;;
  request <- lift (GARQHandshake_pack (author_guid self) target secret) ;;
  _make_asym self recipient request.

Definition make_ack (self : FirstPerson) (target : Guid) (recipient : pyval)
  (status : Z) : M (Guid * bytes) :=
  _ <- lift (_typecheck_thirdparty (fp_cls self) recipient) ;;
  ack <- lift (GARQAck_pack (author_guid self) target status) ;;
  _make_asym self recipient ack.

Definition make_nak (self : FirstPerson) (target : Guid) (recipient : pyval)
  (status : Z) : M (Guid * bytes) :=
  _ <- lift (_typecheck_thirdparty (fp_cls self) recipient) ;;
  nak <- lift (GARQNak_pack (author_guid self) target status) ;;
  _make_asym self recipient nak.

(** The three programs that the end-to-end statements run. *)
Definition object_exchange (sender receiver : FirstPerson)
  (sender_pub : ThirdPerson) (secret : pyval) (plaintext : pydata)
  : M (Guid * (Guid * bytes)) :=
  made <- make_object sender secret plaintext ;;
  handle <- unpack_object receiver (snd made) ;;
  got <- receive_object receiver (PThird sender_pub) secret
           (PGEOC (snd handle)) ;;
  ret (fst made, got).

Definition handshake_exchange (sender receiver : FirstPerson)
  (sender_pub receiver_pub : ThirdPerson) (secret : pyval) (target : Guid)
  : M (Guid * Guid * AsymRecord) :=
  made <- make_request sender secret target (PThird receiver_pub) ;;
  unpacked <- unpack_request receiver (snd made) ;;
  got <- receive_request receiver (PThird sender_pub)
           (PGARQ (snd unpacked)) ;;
  ret (fst made, fst unpacked, got).
End Outgoing.

(** ** A second concrete environment

    Like [Toy.env], with container codecs that invert each other: a guid
    travels as its 64-byte address, an inner record as a tag byte and its
    fields, an envelope as its payload followed by the 64-byte MAC. *)
Module Wire.
Definition guid_ (x : bytes) : Guid := {| algo := 1; address := x |}.

Definition parse_handshake (x : bytes) : result (Guid * Guid * Secret) :=
  match x with
  | t :: rest =>
      if bool_decide (t = x01) && (length rest =? 176)%nat
      then Ok (guid_ (take 64 rest), guid_ (take 64 (drop 64 rest)),
               {| cipher := 1; key := take 32 (drop 128 rest);
                  seed := Some (drop 160 rest) |})
      else Raise ParseError
  | [] => Raise ParseError
  end.

Definition pack_handshake (author target : Guid) (secret : pyval)
  : result bytes :=
  match secret with
  | PSecret s =>
      match seed s with
      | Some nonce => Ok (x01 :: address author ++ address target ++
                          key s ++ nonce)
      | None => Raise TypeError
      end
  | _ => Raise TypeError
  end.

Definition parse_status (tag : byte) (x : bytes) : result (Guid * Guid * Z) :=
  match x with
  | t :: rest =>
      if bool_decide (t = tag) && (length rest =? 129)%nat
      then Ok (guid_ (take 64 rest), guid_ (take 64 (drop 64 rest)),
               Z.of_N (int_from_bytes_big (drop 128 rest)))
      else Raise ParseError
  | [] => Raise ParseError
  end.

Definition pack_status (tag : byte) (author target : Guid) (status : Z)
  : result bytes :=
  if ((0 <=? status) && (status <? 256))%Z
  then Ok (tag :: address author ++ address target ++
           [byte_of_N (Z.to_N status)])
  else Raise ValueError.

Definition parse_garq (x : bytes) : result GARQ.t :=
  if (length x <? 64)%nat then Raise ParseError
  else
    let body := take (length x - 64) x in
    Ok {| GARQ.recipient := guid_ [];
          GARQ.payload := body;
          GARQ.guid := Toy.guid_of 1 body;
          GARQ.signature := drop (length x - 64) x;
          GARQ._plaintext := None |}.

Definition env : External := {|
  ADDRESS_ALGOS := ADDRESS_ALGOS (External := Toy.env);
  _dummy_asym := _dummy_asym (External := Toy.env);
  _dummy_signature := _dummy_signature (External := Toy.env);
  _dummy_pubkey := _dummy_pubkey (External := Toy.env);
  GIDC_pack := GIDC_pack (External := Toy.env);
  GEOC_pack := GEOC_pack (External := Toy.env);
  GEOC_pack_signature := GEOC_pack_signature (External := Toy.env);
  GEOC_unpack := GEOC_unpack (External := Toy.env);
  GARQ_unpack := parse_garq;
  GARQHandshake_unpack := parse_handshake;
  GARQAck_unpack := parse_status x02;
  GARQNak_unpack := parse_status x03;
  AES_block := AES_block (External := Toy.env);
  PSS_sign := PSS_sign (External := Toy.env);
  PSS_verify := PSS_verify (External := Toy.env);
  OAEP_decrypt := fun k x => Ok (rev x);
  get_public := get_public (External := Toy.env);
  do_exchange := do_exchange (External := Toy.env);
  HKDF_SHA512 := HKDF_SHA512 (External := Toy.env);
  HMAC_SHA512 := HMAC_SHA512 (External := Toy.env);
  entropy := entropy (External := Toy.env);
  RSA_generate := RSA_generate (External := Toy.env)
|}.

Definition packers : Packers := {|
  _dummy_mac := [x4d];
  GOBS_pack := fun binder target c a =>
    Ok (Toy.guid_of a (address binder ++ address target),
        address binder ++ address target);
  GOBS_pack_signature := fun body sig => Ok (body ++ sig);
  GOBD_pack := fun binder target dyn history c a =>
    Ok (Toy.guid_of a (address binder ++ address target),
        address binder ++ address target,
        match dyn with Some d => d | None => Toy.guid_of a (address binder) end);
  GOBD_pack_signature := fun body sig => Ok (body ++ sig);
  GDXX_pack := fun debinder target c a =>
    Ok (Toy.guid_of a (address target ++ address debinder),
        address target ++ address debinder);
  GDXX_pack_signature := fun body sig => Ok (body ++ sig);
  GARQ_pack := fun recipient payload c a => Ok (Toy.guid_of a payload, payload);
  GARQ_pack_signature := fun body mac => Ok (body ++ mac);
  GARQHandshake_pack := pack_handshake;
  GARQAck_pack := pack_status x02;
  GARQNak_pack := pack_status x03;
  OAEP_encrypt := fun k x pos => Ok (rev x)
|}.

(** A Secret as [FirstPersonIdentity1.new_secret] makes them. *)
Definition secret : Secret :=
  {| cipher := 1; key := repeat x07 32; seed := Some (repeat x09 16) |}.

(** What [Toy.secret1] makes of a plaintext. *)
Definition ct (p : bytes) : bytes :=
  match _encrypt (E := Toy.env) CS1 (PSecret Toy.secret1) (DBytes p) with
  | Ok c => c
  | Raise _ => []
  end.

(** A null-suite identity and its public identity. *)
Definition null_base : IdentityBase :=
  {| _author_guid := Toy.guid_a; _signature_key := KBytes [x50];
     _encryption_key := KBytes [x50]; _exchange_key := KBytes [x50] |}.

Definition null_pub : ThirdPerson :=
  {| tp_cls := CS0; tp_base := null_base; packed := None |}.

Definition null : FirstPerson :=
  {| fp_cls := CS0; address_algo := 1; fp_base := null_base;
     _third_party := Some null_pub |}.

(** The object that alice makes of [hello] with [Toy.secret1], as the
    receiver unpacks it. *)
Definition hello : bytes := b "hello".

Definition handle : GEOC.t :=
  {| GEOC.author := Toy.guid_of 1 [];
     GEOC.payload := DByteArray (ct hello);
     GEOC.guid := Toy.guid_of 1 (ct hello);
     GEOC.signature := Toy.digest (ct hello) ++ Toy.salt0 |}.

(** Alice's handshake request to bob about [Toy.guid_c], step by step. *)
Definition inner : bytes :=
  x01 :: address Toy.guid_a ++ address Toy.guid_c ++ key secret ++
  repeat x09 16.

Definition payload : bytes := rev inner.

Definition shared : bytes :=
  match _derive_shared (E := env) Toy.alice (PThird Toy.bob_pub) with
  | Ok k => k
  | Raise _ => []
  end.

Definition mac : bytes :=
  HMAC_SHA512 (External := env) shared (Toy.digest payload).

Definition envelope : GARQ.t :=
  {| GARQ.recipient := guid_ [];
     GARQ.payload := payload;
     GARQ.guid := Toy.guid_of 1 payload;
     GARQ.signature := mac;
     GARQ._plaintext := None |}.

(** A complete CipherSuite-1 bundle of public keys. *)
Definition public_bundle : gmap string keyobj :=
  bundle (KRsa 7 3 None) (KRsa 11 3 None) (KEcdhPublic [x01; x02]).

(** The identity that [FirstPersonIdentity1()] generates from the start of
    the entropy stream. *)
Definition generated : FirstPerson :=
  match fst (FirstPerson_init (E := Toy.env) CS1 None None Default Toy.st0)
  with
  | Ok self => self
  | Raise _ => Toy.alice
  end.

(** Alice's static binding of [Toy.guid_c]. *)
Definition binding : Guid * bytes :=
  match fst (make_bind_static (E := Toy.env) (P := packers) Toy.alice
               Toy.guid_c Toy.st0) with
  | Ok r => r
  | Raise _ => (Toy.guid_a, [])
  end.
End Wire.

(** * Properties *)

(** ** Bytes and exclusive or *)

Lemma byte_xor_comm (x y : byte) : byte_xor x y = byte_xor y x.
Proof.
  unfold byte_xor.
  destruct (Byte.to_bits x) as (a0 & a1 & a2 & a3 & a4 & a5 & a6 & a7).
  destruct (Byte.to_bits y) as (b0 & b1 & b2 & b3 & b4 & b5 & b6 & b7).
  rewrite (xorb_comm a0), (xorb_comm a1), (xorb_comm a2), (xorb_comm a3),
    (xorb_comm a4), (xorb_comm a5), (xorb_comm a6), (xorb_comm a7).
  reflexivity.
Qed.

Lemma byte_xor_cancel (x k : byte) : byte_xor (byte_xor x k) k = x.
Proof.
  unfold byte_xor at 1.
  assert (Hx : Byte.to_bits (byte_xor x k) =
               let '(a0, (a1, (a2, (a3, (a4, (a5, (a6, a7))))))) :=
                 Byte.to_bits x in
               let '(b0, (b1, (b2, (b3, (b4, (b5, (b6, b7))))))) :=
                 Byte.to_bits k in
               (xorb a0 b0, (xorb a1 b1, (xorb a2 b2, (xorb a3 b3,
               (xorb a4 b4, (xorb a5 b5, (xorb a6 b6, xorb a7 b7)))))))).
  { unfold byte_xor.
    destruct (Byte.to_bits x) as (a0 & a1 & a2 & a3 & a4 & a5 & a6 & a7).
    destruct (Byte.to_bits k) as (b0 & b1 & b2 & b3 & b4 & b5 & b6 & b7).
    apply Byte.to_bits_of_bits. }
  rewrite Hx. rewrite <- (Byte.of_bits_to_bits x) at 2.
  destruct (Byte.to_bits x) as (a0 & a1 & a2 & a3 & a4 & a5 & a6 & a7).
  destruct (Byte.to_bits k) as (b0 & b1 & b2 & b3 & b4 & b5 & b6 & b7).
  rewrite !xorb_assoc, !xorb_nilpotent, !xorb_false_r. reflexivity.
Qed.

Lemma xor_bytes_comm (x y : bytes) : xor_bytes x y = xor_bytes y x.
Proof.
  revert y. induction x as [|a x IH]; intros [|c y]; simpl; try reflexivity.
  rewrite byte_xor_comm, IH. reflexivity.
Qed.

Lemma xor_bytes_length (x y : bytes) :
  length x <= length y -> length (xor_bytes x y) = length x.
Proof.
  revert y. induction x as [|a x IH]; intros [|c y] H; simpl in *;
    try reflexivity; try lia.
  rewrite IH; lia.
Qed.

Lemma xor_bytes_cancel (x ks : bytes) :
  length x <= length ks -> xor_bytes (xor_bytes x ks) ks = x.
Proof.
  revert ks. induction x as [|a x IH]; intros [|c ks] H; simpl in *;
    try reflexivity; try lia.
  rewrite byte_xor_cancel, IH; [reflexivity | lia].
Qed.

Lemma N_to_bytes_big_length (len : nat) (n : N) :
  length (N_to_bytes_big len n) = len.
Proof.
  unfold N_to_bytes_big. rewrite length_rev. revert n.
  induction len as [|len IH]; intros n; simpl; [reflexivity|].
  rewrite IH. reflexivity.
Qed.

Lemma int_from_bytes_big_acc (x : bytes) (acc : N) :
  (fold_left (fun acc x => (acc * 256 + Byte.to_N x)%N) x acc
   < (acc + 1) * 256 ^ N.of_nat (length x))%N.
Proof.
  revert acc. induction x as [|a x IH]; intros acc.
  - simpl. lia.
  - cbn [fold_left length]. specialize (IH (acc * 256 + Byte.to_N a)%N).
    pose proof (Byte.to_N_bounded a) as Ha.
    rewrite Nat2N.inj_succ, N.pow_succ_r'.
    eapply N.lt_le_trans; [exact IH|].
    replace ((acc + 1) * (256 * 256 ^ N.of_nat (length x)))%N
      with (((acc + 1) * 256) * 256 ^ N.of_nat (length x))%N by lia.
    apply N.mul_le_mono_r. lia.
Qed.

Lemma int_from_bytes_big_bound (x : bytes) :
  (int_from_bytes_big x < 256 ^ N.of_nat (length x))%N.
Proof.
  unfold int_from_bytes_big.
  pose proof (int_from_bytes_big_acc x 0) as H. simpl in H.
  rewrite N.mul_1_l in H. exact H.
Qed.

(** ** The symmetric cipher *)

Section Symmetric.
Context `{E : External}.

Lemma keystream_from_length (c : CtrMode) (start n : nat) :
  length (flat_map (keystream_block c) (seq start n)) = 16 * n.
Proof.
  revert start. induction n as [|n IH]; intros start; [reflexivity|].
  cbn [seq flat_map]. rewrite length_app, IH. unfold keystream_block.
  rewrite N_to_bytes_big_length. lia.
Qed.

Lemma keystream_length (c : CtrMode) (n : nat) :
  length (keystream c n) = 16 * n.
Proof. apply keystream_from_length. Qed.

Lemma blocks_for_cover (len : nat) : len <= 16 * blocks_for len.
Proof.
  unfold blocks_for.
  pose proof (Nat.div_mod_eq (len + 15) 16) as H.
  pose proof (Nat.mod_upper_bound (len + 15) 16) as Hm. lia.
Qed.

Lemma keystream_cover (c : CtrMode) (x : bytes) :
  length x <= length (keystream c (blocks_for (length x))).
Proof. rewrite keystream_length. apply blocks_for_cover. Qed.

Lemma CtrMode_encrypt_length (c : CtrMode) (x : bytes) :
  length (CtrMode_encrypt c x) = length x.
Proof. apply xor_bytes_length, keystream_cover. Qed.

Lemma CtrMode_roundtrip (c : CtrMode) (x : bytes) :
  CtrMode_decrypt c (CtrMode_encrypt c x) = x.
Proof.
  unfold CtrMode_decrypt. rewrite CtrMode_encrypt_length.
  apply xor_bytes_cancel, keystream_cover.
Qed.

Lemma valid_secret_cipher (s : Secret) :
  valid_secret s = true ->
  exists nonce, seed s = Some nonce /\
    AES_new_CTR (key s) (int_from_bytes_big nonce) =
    Ok {| ctr_key := key s; ctr_initial := int_from_bytes_big nonce |}.
Proof.
  unfold valid_secret, AES_new_CTR. intros H.
  apply andb_true_iff in H as [Hk Hs].
  destruct (seed s) as [nonce|]; [|discriminate].
  exists nonce. split; [reflexivity|]. rewrite Hk. simpl.
  apply N.ltb_lt in Hs.
  destruct (N.leb_spec (2 ^ 128) (int_from_bytes_big nonce)); [lia|].
  reflexivity.
Qed.

(** Secrets made by [FirstPersonIdentity1.new_secret] are accepted. *)
Lemma new_secret_valid (st : state) :
  exists s st', new_secret CS1 st = (Ok s, st') /\ valid_secret s = true /\
                cipher s = _ciphersuite CS1.
Proof.
  eexists _, _. split; [reflexivity|]. split; [|reflexivity].
  unfold valid_secret. cbn [key seed].
  rewrite length_map, length_seq. cbn [AES_key_size_ok Nat.eqb orb andb].
  apply N.ltb_lt.
  pose proof (int_from_bytes_big_bound
                (map entropy (seq (draws st + 32) 16))) as H.
  rewrite length_map, length_seq in H. exact H.
Qed.
End Symmetric.

Section SymmetricClaims.
Context `{E : External}.

(** C5, amended. For CipherSuite-1, every Secret that the cipher accepts
    and every plaintext with a bytes value [p], encryption returns a
    ciphertext and decrypting it returns [p].  CipherSuite-0 is left out:
    its decryptor returns a fixed placeholder whatever it is given. *)
Theorem symmetric_roundtrip_suite1 (s : Secret) (data : pydata) (p : bytes) :
  valid_secret s = true ->
  coerce_bytes data = Ok p ->
  (exists c, _encrypt CS1 (PSecret s) data = Ok c /\
             _decrypt CS1 (PSecret s) (DBytes c) = Ok p) /\
  (forall secret' data',
      _decrypt CS0 secret' data' =
      Ok (b "[[ PLACEHOLDER DECRYPTED SYMMETRIC MESSAGE. Hello world! ]]")).
Proof.
  intros Hs Hp. split; [|reflexivity].
  destruct (valid_secret_cipher s Hs) as (nonce & Hseed & Hc).
  exists (CtrMode_encrypt
            {| ctr_key := key s; ctr_initial := int_from_bytes_big nonce |} p).
  unfold _encrypt, _decrypt. rewrite Hp. cbn [rbind attr_seed attr_key
    coerce_bytes]. rewrite Hseed. cbn [seed_to_int rbind]. rewrite Hc.
  cbn [rbind]. split; [reflexivity|].
  rewrite CtrMode_roundtrip. reflexivity.
Qed.
End SymmetricClaims.

(** A valid Secret, a plaintext, and the round trip on them. *)
Lemma symmetric_roundtrip_suite1_witness :
  (exists c,
      _encrypt (E := Toy.env) CS1 (PSecret Toy.secret1)
        (DByteArray (b "hello")) = Ok c /\
      _decrypt (E := Toy.env) CS1 (PSecret Toy.secret1) (DBytes c)
      = Ok (b "hello")) /\
  (forall secret' data',
      _decrypt (E := Toy.env) CS0 secret' data' =
      Ok (b "[[ PLACEHOLDER DECRYPTED SYMMETRIC MESSAGE. Hello world! ]]")).
Proof.
  apply (symmetric_roundtrip_suite1 (E := Toy.env) Toy.secret1
           (DByteArray (b "hello")) (b "hello")); reflexivity.
Defined.

(** C5 as stated fails on CipherSuite-0: decrypting what the null suite
    encrypted does not give the plaintext back. *)
Lemma symmetric_roundtrip_fails_suite0 :
  (c <- _encrypt (E := Toy.env) CS0 (PSecret Toy.secret0)
          (DBytes (b "hello")) ;;
   _decrypt (E := Toy.env) CS0 (PSecret Toy.secret0) (DBytes c))%result
  <> Ok (b "hello").
Proof. vm_compute. discriminate. Qed.

(** ** Key bundles and construction *)

Lemma bundle_signature (sk ek xk : keyobj) :
  getitem (Some (bundle sk ek xk)) "signature" = Ok sk.
Proof. unfold getitem, bundle. by simplify_map_eq. Qed.

Lemma bundle_encryption (sk ek xk : keyobj) :
  getitem (Some (bundle sk ek xk)) "encryption" = Ok ek.
Proof. unfold getitem, bundle. by simplify_map_eq. Qed.

Lemma bundle_exchange (sk ek xk : keyobj) :
  getitem (Some (bundle sk ek xk)) "exchange" = Ok xk.
Proof. unfold getitem, bundle. by simplify_map_eq. Qed.

Lemma rbind_Ok {A B} (r : result A) (k : A -> result B) (y : B) :
  rbind r k = Ok y -> exists x, r = Ok x /\ k x = Ok y.
Proof. destruct r as [x|e]; simpl; [eauto | discriminate]. Qed.

Lemma reraise_Ok {A} (caught : exn -> bool) (e' : exn) (r : result A)
  (x : A) :
  reraise caught e' r = Ok x -> r = Ok x.
Proof.
  destruct r as [y|e]; simpl; [auto|]. destruct (caught e); discriminate.
Qed.

Lemma bind_Ok {A B} (m : M A) (k : A -> M B) (st st' : state) (y : B) :
  bind m k st = (Ok y, st') ->
  exists x st1, m st = (Ok x, st1) /\ k x st1 = (Ok y, st').
Proof.
  unfold bind. destruct (m st) as [[x|e] st1]; [eauto | discriminate].
Qed.

Section Construction.
Context `{E : External}.

Lemma IdentityBase_init_bundle (sk ek xk : keyobj) (g : Guid) :
  IdentityBase_init (Some (bundle sk ek xk)) g =
  Ok {| _author_guid := g; _signature_key := sk; _encryption_key := ek;
        _exchange_key := xk |}.
Proof.
  unfold IdentityBase_init.
  rewrite bundle_signature, bundle_encryption, bundle_exchange. reflexivity.
Qed.

Lemma IdentityBase_init_guid (keys : pydict) (g : Guid) (base : IdentityBase) :
  IdentityBase_init keys g = Ok base -> _author_guid base = g.
Proof.
  unfold IdentityBase_init. intros H. apply reraise_Ok in H.
  apply rbind_Ok in H as (sk & _ & H). apply rbind_Ok in H as (ek & _ & H).
  apply rbind_Ok in H as (xk & _ & H). injection H as <-. reflexivity.
Qed.

(** [from_keys] builds an instance of the class it is called on, around
    the keys it was given. *)
Lemma from_keys_bundle (cls : suite) (sk ek xk : keyobj) (a : Z)
  (t : ThirdPerson) :
  from_keys cls (Some (bundle sk ek xk)) a = Ok t ->
  tp_cls t = cls /\ _exchange_key (tp_base t) = xk /\
  _signature_key (tp_base t) = sk /\ _encryption_key (tp_base t) = ek.
Proof.
  unfold from_keys. intros H.
  apply rbind_Ok in H as (pk & _ & H). apply rbind_Ok in H as (k1 & _ & H).
  apply rbind_Ok in H as (k2 & _ & H). apply rbind_Ok in H as (k3 & _ & H).
  apply rbind_Ok in H as (gidc & _ & H). rewrite IdentityBase_init_bundle in H.
  simpl in H. injection H as <-. auto.
Qed.

(** A generated identity holds its own public identity. *)
Lemma generated_public_of (cls : suite) (a : algo_arg) (st st' : state)
  (self : FirstPerson) :
  FirstPerson_init cls None None a st = (Ok self, st') ->
  fp_cls self = cls /\
  exists pub, third_party self = Ok pub /\ public_of self pub.
Proof.
  unfold FirstPerson_init. intros H.
  apply bind_Ok in H as (algo & st1 & _ & H). cbn beta iota in H.
  apply bind_Ok in H as (keys & st2 & Hk & H).
  apply bind_Ok in H as (third & st3 & Ht & H).
  apply bind_Ok in H as (base & st4 & Hb & H).
  injection H as <- _. split; [reflexivity|].
  exists third. split; [reflexivity|].
  unfold lift in Ht, Hb. injection Ht as Ht _. injection Hb as Hb _.
  unfold public_of, author_guid. cbn [fp_cls fp_base].
  destruct cls.
  - cbn in Hk. injection Hk as <- _. cbn [_generate_third_person] in Ht.
    pose proof (from_keys_bundle _ _ _ _ _ _ Ht) as (Hc & _).
    rewrite IdentityBase_init_bundle in Hb. injection Hb as <-.
    cbn [_author_guid]. split; [exact Hc|]. split; [reflexivity|].
    discriminate.
  - unfold _generate_keys in Hk.
    apply bind_Ok in Hk as (sk & s1 & _ & Hk).
    apply bind_Ok in Hk as (ek & s2 & _ & Hk).
    apply bind_Ok in Hk as (xs & s3 & _ & Hk).
    injection Hk as <- _. cbn [_generate_third_person] in Ht.
    rewrite bundle_signature, bundle_encryption, bundle_exchange in Ht.
    cbn [rbind] in Ht.
    apply rbind_Ok in Ht as (spub & _ & Ht).
    apply rbind_Ok in Ht as (epub & _ & Ht).
    cbn [key_get_public rbind] in Ht.
    pose proof (from_keys_bundle _ _ _ _ _ _ Ht) as (Hc & Hx & _).
    rewrite IdentityBase_init_bundle in Hb. injection Hb as <-.
    cbn [_author_guid _exchange_key key_get_public].
    split; [exact Hc|]. split; [reflexivity|]. intros _. rewrite Hx.
    reflexivity.
Qed.
End Construction.

(** ** Shared secrets *)

Section SharedSecret.
Context `{E : External}.

(** C4. For two identities A and B of the same ciphersuite, each paired
    with its public identity, A deriving the shared secret with B's public
    identity gets what B gets with A's: the exchange commutes (the law of
    the X25519 primitive), and the salt, the byte-wise exclusive or of the
    two address digests, is the same on both sides whoever computes it. *)
Theorem derive_shared_symmetric (A B : FirstPerson) (A3 B3 : ThirdPerson) :
  exchange_commutes ->
  fp_cls A = fp_cls B ->
  public_of A A3 ->
  public_of B B3 ->
  _derive_shared A (PThird B3) = _derive_shared B (PThird A3) /\
  shared_salt (address (author_guid A)) (address (_author_guid (tp_base B3))) =
  shared_salt (address (author_guid B)) (address (_author_guid (tp_base A3))).
Proof.
  intros Hx Hcls (HcA & HgA & HkA) (HcB & HgB & HkB).
  assert (Hsalt :
    shared_salt (address (author_guid A))
      (address (_author_guid (tp_base B3))) =
    shared_salt (address (author_guid B))
      (address (_author_guid (tp_base A3)))).
  { rewrite HgA, HgB. apply xor_bytes_comm. }
  split; [|exact Hsalt].
  unfold _derive_shared, _typecheck_thirdparty.
  rewrite HcA, HcB. rewrite <- Hcls in HkB |- *.
  destruct (fp_cls A).
  - reflexivity.
  - specialize (HkA eq_refl). specialize (HkB eq_refl).
    cbn [attr_base rbind].
    destruct (_exchange_key (fp_base A)) as [| | skA |]; try discriminate.
    destruct (_exchange_key (fp_base B)) as [| | skB |]; try discriminate.
    cbn in HkA, HkB. injection HkA as <-. injection HkB as <-.
    cbn [rbind]. rewrite (Hx skA skB), Hsalt. reflexivity.
Qed.
End SharedSecret.

Lemma toy_exchange_commutes : exchange_commutes (E := Toy.env).
Proof. intros sk1 sk2. cbn. f_equal. apply xor_bytes_comm. Qed.

(** Two CipherSuite-1 identities with different keys and addresses. *)
Lemma derive_shared_symmetric_witness :
  _derive_shared (E := Toy.env) Toy.alice (PThird Toy.bob_pub) =
  _derive_shared (E := Toy.env) Toy.bob (PThird Toy.alice_pub) /\
  shared_salt (address (author_guid Toy.alice))
    (address (_author_guid (tp_base Toy.bob_pub))) =
  shared_salt (address (author_guid Toy.bob))
    (address (_author_guid (tp_base Toy.alice_pub))).
Proof.
  apply (derive_shared_symmetric (E := Toy.env) Toy.alice Toy.bob
           Toy.alice_pub Toy.bob_pub).
  - exact toy_exchange_commutes.
  - reflexivity.
  - repeat split; reflexivity.
  - repeat split; reflexivity.
Defined.

(** ** Construction from existing keys *)

Section Loading.
Context `{E : External}.

(** [_IdentityBase.__init__] turns a missing role into [RuntimeError]. *)
Lemma IdentityBase_init_missing_role (d : gmap string keyobj) (g : Guid) :
  missing_role d -> IdentityBase_init (Some d) g = Raise RuntimeError.
Proof.
  unfold missing_role, IdentityBase_init, getitem. intros H.
  destruct (d !! "signature"), (d !! "encryption"), (d !! "exchange");
    simpl; try reflexivity; exfalso; intuition discriminate.
Qed.

(** So does loading a first-person identity. *)
Lemma FirstPerson_init_missing_role (cls : suite) (d : gmap string keyobj)
  (g : Guid) (st : state) :
  missing_role d ->
  FirstPerson_init cls (Some d) (Some g) Default st = (Raise RuntimeError, st).
Proof.
  intros H. unfold FirstPerson_init, bind, lift. cbn [_dispatch_address].
  rewrite (IdentityBase_init_missing_role d g H). reflexivity.
Qed.

(** [ThirdPersonIdentity1.from_keys] reads the bundle inside the guarded
    call of [_pack_keys]. *)
Lemma from_keys_suite1_missing_signature (d : gmap string keyobj) (a : Z) :
  d !! "signature" = None -> from_keys CS1 (Some d) a = Raise RuntimeError.
Proof.
  intros H. unfold from_keys, _pack_keys, getitem. rewrite H. reflexivity.
Qed.

(** With RSA keys of at most 4096 bits in the roles that come before the
    missing one, any missing role gives [RuntimeError] there. *)
Lemma from_keys_suite1_missing_role (d : gmap string keyobj) (a : Z) :
  missing_role d ->
  (forall role k, role = "signature" \/ role = "encryption" ->
     d !! role = Some k ->
     exists n e x, k = KRsa n e x /\ (n < 256 ^ 512)%N) ->
  from_keys CS1 (Some d) a = Raise RuntimeError.
Proof.
  intros H Hrsa. unfold from_keys, _pack_keys, getitem.
  destruct (d !! "signature") as [sk|] eqn:Hs; [|reflexivity].
  destruct (Hrsa "signature" sk (or_introl eq_refl) Hs)
    as (n1 & e1 & x1 & -> & Hn1).
  cbn [rbind attr_n]. unfold int_to_bytes_big.
  replace (N.of_nat 512) with 512%N by reflexivity.
  apply N.ltb_lt in Hn1. rewrite Hn1. cbn [rbind].
  destruct (d !! "encryption") as [ek|] eqn:He; [|reflexivity].
  destruct (Hrsa "encryption" ek (or_intror eq_refl) He)
    as (n2 & e2 & x2 & -> & Hn2).
  cbn [rbind attr_n]. apply N.ltb_lt in Hn2. rewrite Hn2. cbn [rbind].
  destruct (d !! "exchange") as [xk|] eqn:Hx; [|reflexivity].
  exfalso. unfold missing_role in H. rewrite Hs, He, Hx in H.
  intuition discriminate.
Qed.

(** [ThirdPersonIdentity0.from_keys]: [_pack_keys] hands the bundle back
    untouched, and the first read of a role happens after the guarded
    call, so the [KeyError] escapes. *)
Lemma from_keys_suite0_missing_role (d : gmap string keyobj) (a : Z) :
  missing_role d -> from_keys CS0 (Some d) a = Raise KeyError.
Proof.
  unfold missing_role, from_keys, _pack_keys, getitem. intros H.
  cbn [reraise rbind].
  destruct (d !! "signature"), (d !! "encryption"), (d !! "exchange");
    simpl; try reflexivity; exfalso; intuition discriminate.
Qed.

(** A loaded identity has no [_third_party] attribute. *)
Lemma loaded_identity_third_party (cls : suite) (d : gmap string keyobj)
  (g : Guid) (a : algo_arg) (st st' : state) (self : FirstPerson) :
  FirstPerson_init cls (Some d) (Some g) a st = (Ok self, st') ->
  third_party self = Raise AttributeError /\ author_guid self = g.
Proof.
  unfold FirstPerson_init. intros H.
  apply bind_Ok in H as (algo & st1 & _ & H). cbn beta iota in H.
  apply bind_Ok in H as (base & st2 & Hb & H). injection H as <- _.
  unfold lift in Hb. injection Hb as Hb _.
  split; [reflexivity|]. unfold author_guid. cbn [fp_base].
  eapply IdentityBase_init_guid, Hb.
Qed.
End Loading.

(** C6, the code at a failing input.  Loading [FirstPersonIdentity0] from
    a complete key bundle and an author guid succeeds, and reading
    [third_party] of the result raises [AttributeError]: the branch that
    loads an identity never sets [_third_party], while the branch that
    generates one does ([generated_public_of]). *)
Theorem loaded_identity_third_party_unset :
  let k := KBytes [x50] in
  let g := {| algo := 1; address := repeat x0a 64 |} in
  fst ((self <- FirstPerson_init (E := Toy.env) CS0 (Some (bundle k k k))
                  (Some g) Default ;;
        lift (third_party self))%M Toy.st0)
  = Raise AttributeError.
Proof. vm_compute. reflexivity. Qed.

(** C7, the code at a failing input.  [ThirdPersonIdentity0.from_keys] on
    a bundle without the exchange role raises [KeyError], not the
    [RuntimeError] of a malformed bundle that [_IdentityBase.__init__] and
    [ThirdPersonIdentity1.from_keys] raise. *)
Theorem from_keys_suite0_raises_KeyError :
  let k := KBytes [x50] in
  let d : gmap string keyobj := <["encryption" := k]> (<["signature" := k]> ∅) in
  from_keys (E := Toy.env) CS0 (Some d) 1 = Raise KeyError /\
  IdentityBase_init (Some d) {| algo := 1; address := [] |}
  = Raise RuntimeError.
Proof. vm_compute. split; reflexivity. Qed.

(** ** Objects: [make_object] and [receive_object] *)

Section Objects.
Context `{E : External}.

Lemma _typecheck_secret_spec (cls : suite) (secret : pyval) :
  _typecheck_secret cls secret = true <->
  exists s, secret = PSecret s /\ cipher s = _ciphersuite cls.
Proof.
  unfold _typecheck_secret. split.
  - destruct secret as [| |s| | |]; try discriminate.
    destruct (Z.eqb_spec (cipher s) (_ciphersuite cls)); [eauto|discriminate].
  - intros (s & -> & Hc). rewrite Hc, Z.eqb_refl. reflexivity.
Qed.

(** C8. [make_object] rejects with [TypeError] every secret that is not a
    Secret of the identity's own ciphersuite id, and does so before any
    call is made: the state, trace included, is untouched.  For a
    matching secret it encrypts the plaintext, packs a GEOC around the
    payload, signs the address of the packed object and attaches the
    signature, in this order, and returns the guid with the signed
    packing.  The signature is the null suite's placeholder, or in
    CipherSuite-1 the PSS signature of the 64-byte address under the
    identity's signature key and a salt of 64 bytes taken from the entropy
    stream, which moves on by as much. *)
Theorem make_object_typechecks_first (self : FirstPerson) (secret : pyval)
  (plaintext : pydata) (st : state) :
  (_typecheck_secret (fp_cls self) secret = true <->
   exists s, secret = PSecret s /\ cipher s = ciphersuite self) /\
  (_typecheck_secret (fp_cls self) secret = false ->
   make_object self secret plaintext st = (Raise TypeError, st)) /\
  (_typecheck_secret (fp_cls self) secret = true ->
   forall payload g body sig packed,
     _encrypt (fp_cls self) secret plaintext = Ok payload ->
     GEOC_pack (author_guid self) payload (ciphersuite self)
       (address_algo self) = Ok (g, body) ->
     match fp_cls self with
     | CS0 => sig = _dummy_signature
     | CS1 =>
         length (address g) = SHA512_digest_size /\
         PSS_sign (_signature_key (fp_base self)) (address g)
           (map entropy (seq (draws st) 64)) = Ok sig
     end ->
     GEOC_pack_signature body sig = Ok packed ->
     make_object self secret plaintext st =
     (Ok (g, packed),
      {| heap := heap st;
         trace := trace st ++ [Call_encrypt secret plaintext;
                               Call_pack K_GEOC;
                               Call_sign (address g);
                               Call_pack_signature K_GEOC sig];
         draws := draws st + match fp_cls self with
                             | CS0 => 0
                             | CS1 => 64
                             end |})).
Proof.
  split; [apply _typecheck_secret_spec|]. split.
  - intros H. unfold make_object. rewrite H. reflexivity.
  - intros H payload g body sig packed He Hp Hs Ha.
    unfold make_object, bind, call, call_in, ret. rewrite H, He, Hp.
    cbn [negb fst snd heap trace draws]. unfold _sign.
    destruct (fp_cls self).
    + subst sig. unfold ret. cbn [heap trace draws]. rewrite Ha.
      rewrite <- !app_assoc, Nat.add_0_r. reflexivity.
    + destruct Hs as [Hlen Hs].
      unfold bind, lift, get_random_bytes, draw, _FrozenSHA512,
        _PSS_SALT_LENGTH.
      rewrite Hlen, Nat.eqb_refl. cbn [negb heap trace draws].
      change SHA512_digest_size with 64. rewrite Hs.
      cbn [heap trace draws]. rewrite Ha. rewrite <- !app_assoc.
      reflexivity.
Qed.

(** C1. [receive_object] calls [_verify] on the object's signature and
    address first; [_decrypt] is called only when that call returned, and
    otherwise the exception of [_verify] is the outcome and nothing is
    decrypted.  For CipherSuite-1 a signature that the sender's public
    signature key does not verify gives [SecurityError]. *)
Theorem receive_object_verify_then_decrypt (self : FirstPerson)
  (public secret : pyval) (g : GEOC.t) (st : state) :
  let sig := GEOC.signature g in
  let addr := address (GEOC.guid g) in
  let verify := Call_verify public sig addr in
  let decrypt := Call_decrypt secret (GEOC.payload g) in
  let out := receive_object self public secret (PGEOC g) st in
  heap (snd out) = heap st /\
  match _verify self public sig addr with
  | Ok _ =>
      trace (snd out) = trace st ++ [verify; decrypt] /\
      fst out = (p <- _decrypt (fp_cls self) secret (GEOC.payload g) ;;
                 Ok (GEOC.guid g, p))%result
  | Raise e =>
      trace (snd out) = trace st ++ [verify] /\ fst out = Raise e
  end /\
  (fp_cls self = CS1 ->
   forall pub,
     public = PThird pub -> tp_cls pub = CS1 ->
     length addr = SHA512_digest_size ->
     PSS_verify (_signature_key (tp_base pub)) addr sig = Raise ValueError ->
     fst out = Raise SecurityError /\
     trace (snd out) = trace st ++ [verify]).
Proof.
  intros sig addr verify decrypt out.
  assert (Hmain :
    heap (snd out) = heap st /\
    match _verify self public sig addr with
    | Ok _ =>
        trace (snd out) = trace st ++ [verify; decrypt] /\
        fst out = (p <- _decrypt (fp_cls self) secret (GEOC.payload g) ;;
                   Ok (GEOC.guid g, p))%result
    | Raise e =>
        trace (snd out) = trace st ++ [verify] /\ fst out = Raise e
    end).
  { subst out. unfold receive_object, bind, call, ret. fold sig addr.
    destruct (_verify self public sig addr) as [v|e]; cbn.
    - destruct (_decrypt (fp_cls self) secret (GEOC.payload g)); cbn;
        rewrite <- app_assoc; auto.
    - auto. }
  destruct Hmain as [Hheap Hmain]. split; [exact Hheap|].
  split; [exact Hmain|].
  intros Hcls pub -> Hpub Hlen Hpss.
  assert (Hv : _verify self (PThird pub) sig addr = Raise SecurityError).
  { unfold _verify, _typecheck_thirdparty, _FrozenSHA512.
    rewrite Hcls, Hpub, Hlen. cbn. rewrite Hpss. reflexivity. }
  rewrite Hv in Hmain. destruct Hmain as [Ht Hr]. auto.
Qed.
End Objects.

(** A Secret of another suite is rejected untouched, and a matching one
    goes through the four steps. *)
Lemma make_object_typechecks_first_witness :
  make_object (E := Toy.env) Toy.alice
    (PSecret {| cipher := 0; key := []; seed := None |}) (DBytes [x68; x69])
    Toy.st0 = (Raise TypeError, Toy.st0) /\
  exists g packed payload,
    make_object (E := Toy.env) Toy.alice (PSecret Toy.secret1)
      (DBytes (repeat x41 64)) Toy.st0 =
    (Ok (g, packed),
     {| heap := [];
        trace := [Call_encrypt (PSecret Toy.secret1) (DBytes (repeat x41 64));
                  Call_pack K_GEOC; Call_sign (address g);
                  Call_pack_signature K_GEOC (address g ++ Toy.salt0)];
        draws := 64 |}) /\
    _encrypt (E := Toy.env) CS1 (PSecret Toy.secret1) (DBytes (repeat x41 64))
    = Ok payload /\
    packed = payload ++ address g ++ Toy.salt0.
Proof.
  split.
  - pose proof (make_object_typechecks_first (E := Toy.env) Toy.alice
                  (PSecret {| cipher := 0; key := []; seed := None |})
                  (DBytes [x68; x69]) Toy.st0) as (_ & H & _).
    apply H. reflexivity.
  - pose proof (make_object_typechecks_first (E := Toy.env) Toy.alice
                  (PSecret Toy.secret1) (DBytes (repeat x41 64)) Toy.st0)
      as (_ & _ & H).
    eexists _, _, _. split; [|split].
    + eapply (H eq_refl); [reflexivity | reflexivity | | reflexivity].
      split; reflexivity.
    + reflexivity.
    + reflexivity.
Defined.

(** An object with a flipped signature byte is refused with
    [SecurityError] after the one call of [_verify]. *)
Lemma receive_object_verify_then_decrypt_witness :
  let out := receive_object (E := Toy.env) Toy.bob (PThird Toy.alice_pub)
               (PSecret Toy.secret1) (PGEOC Toy.geoc_bad) Toy.st0 in
  fst out = Raise SecurityError /\
  trace (snd out) =
  [Call_verify (PThird Toy.alice_pub) (GEOC.signature Toy.geoc_bad)
     (address (GEOC.guid Toy.geoc_bad))].
Proof.
  intros out.
  pose proof (receive_object_verify_then_decrypt (E := Toy.env) Toy.bob
                (PThird Toy.alice_pub) (PSecret Toy.secret1) Toy.geoc_bad
                Toy.st0) as (_ & _ & H).
  apply (H eq_refl Toy.alice_pub eq_refl eq_refl eq_refl eq_refl).
Defined.

(** Alice makes an object, bob unpacks and receives it: same guid, same
    plaintext. *)
Example object_end_to_end :
  fst ((made <- make_object (E := Toy.env) Toy.alice (PSecret Toy.secret1)
                  (DBytes (b "hello")) ;;
        handle <- unpack_object (E := Toy.env) Toy.bob (snd made) ;;
        got <- receive_object (E := Toy.env) Toy.bob (PThird Toy.alice_pub)
                 (PSecret Toy.secret1) (PGEOC (snd handle)) ;;
        ret (bytes_eqb (address (fst got)) (address (fst made)), snd got))%M
         Toy.st0)
  = Ok (true, b "hello").
Proof. vm_compute. reflexivity. Qed.

(** The same with the first byte of the packed object changed. *)
Example object_end_to_end_corrupted :
  fst ((made <- make_object (E := Toy.env) Toy.alice (PSecret Toy.secret1)
                  (DBytes (b "hello")) ;;
        handle <- unpack_object (E := Toy.env) Toy.bob (xff :: drop 1 (snd made)) ;;
        receive_object (E := Toy.env) Toy.bob (PThird Toy.alice_pub)
          (PSecret Toy.secret1) (PGEOC (snd handle)))%M
         Toy.st0)
  = Raise SecurityError.
Proof. vm_compute. reflexivity. Qed.

(** ** Requests: [unpack_request] and [receive_request] *)

Section Requests.
Context `{E : External}.

Lemma lookup_alter_last (f : GARQ.t -> GARQ.t) (h : list GARQ.t) (o : GARQ.t) :
  alter f (length h) (h ++ [o]) !! length h = Some (f o).
Proof.
  rewrite list_lookup_alter, list_lookup_middle by reflexivity.
  case_decide; [reflexivity | congruence].
Qed.

(** The nested [try] blocks compute the cascade of the specification and
    look at the candidates in its order. *)
Lemma parse_request_cascade (p : bytes) (st : state) :
  let cands := [as_handshake p; as_ack p; as_nak p] in
  parse_request p st =
  (cascade_outcome cands,
   {| heap := heap st;
      trace := trace st ++
               take (cascade_attempts cands)
                 [Call_unpack K_GARQHandshake p; Call_unpack K_GARQAck p;
                  Call_unpack K_GARQNak p];
      draws := draws st |}).
Proof.
  unfold parse_request, try_except, bind, call, ret, raise, as_handshake,
    as_ack, as_nak.
  destruct (GARQHandshake_unpack p) as [u1|[]]; cbn; try reflexivity.
  destruct (GARQAck_unpack p) as [u2|[]]; cbn;
    rewrite <- ?app_assoc; try reflexivity.
  destruct (GARQNak_unpack p) as [u3|[]]; cbn;
    rewrite <- ?app_assoc; reflexivity.
Qed.

(** C2. Once the envelope is unpacked and its payload decrypted,
    [unpack_request] returns what the specification's cascade returns on
    the candidates Handshake, Ack, Nak in this order: the first record
    that parses, [SecurityError] when all three fail to parse, and any
    exception other than [ParseError] as it was raised; the parsers are
    called in that order and no further than the deciding candidate; and
    the envelope caches the record. *)
Theorem unpack_request_cascade (self : FirstPerson) (packed : bytes)
  (st : state) (o : GARQ.t) (p : bytes) :
  GARQ_unpack packed = Ok o ->
  _decrypt_asym self (GARQ.payload o) = Ok p ->
  let cands := [as_handshake p; as_ack p; as_nak p] in
  let out := unpack_request self packed st in
  let l := length (heap st) in
  fst out = (r <- cascade_outcome cands ;; Ok (record_author r, l))%result /\
  trace (snd out) =
    trace st ++
    [Call_unpack K_GARQ packed; Call_decrypt_asym (GARQ.payload o)] ++
    take (cascade_attempts cands)
      [Call_unpack K_GARQHandshake p; Call_unpack K_GARQAck p;
       Call_unpack K_GARQNak p] /\
  (forall r, cascade_outcome cands = Ok r -> cached (snd out) l = Some r) /\
  (forall r, as_handshake p = Ok r -> fst out = Ok (record_author r, l)) /\
  (as_handshake p = Raise ParseError -> as_ack p = Raise ParseError ->
   as_nak p = Raise ParseError -> fst out = Raise SecurityError) /\
  (forall e, e <> ParseError ->
     as_handshake p = Raise e \/
     (as_handshake p = Raise ParseError /\ as_ack p = Raise e) \/
     (as_handshake p = Raise ParseError /\ as_ack p = Raise ParseError /\
      as_nak p = Raise e) ->
     fst out = Raise e).
Proof.
  intros Ho Hp cands out l.
  assert (Hout :
    out = match cascade_outcome cands with
          | Ok r =>
              (Ok (record_author r, l),
               {| heap := alter (fun o => GARQ.set_plaintext o (Some r)) l
                            (heap st ++ [o]);
                  trace := trace st ++
                    [Call_unpack K_GARQ packed;
                     Call_decrypt_asym (GARQ.payload o)] ++
                    take (cascade_attempts cands)
                      [Call_unpack K_GARQHandshake p;
                       Call_unpack K_GARQAck p; Call_unpack K_GARQNak p];
                  draws := draws st |})
          | Raise e =>
              (Raise e,
               {| heap := heap st ++ [o];
                  trace := trace st ++
                    [Call_unpack K_GARQ packed;
                     Call_decrypt_asym (GARQ.payload o)] ++
                    take (cascade_attempts cands)
                      [Call_unpack K_GARQHandshake p;
                       Call_unpack K_GARQAck p; Call_unpack K_GARQNak p];
                  draws := draws st |})
          end).
  { subst out. unfold unpack_request, bind at 1, call at 1. rewrite Ho.
    unfold bind at 1, alloc. unfold bind at 1, call at 1. cbn [heap trace draws].
    rewrite Hp. unfold bind at 1. rewrite parse_request_cascade.
    fold cands. cbn [heap trace draws].
    destruct (cascade_outcome cands) as [r|e].
    - unfold bind, store_plaintext, ret. cbn [heap trace draws].
      rewrite <- !app_assoc. reflexivity.
    - rewrite <- !app_assoc. reflexivity. }
  assert (Hfst :
    fst out = (r <- cascade_outcome cands ;; Ok (record_author r, l))%result).
  { rewrite Hout. destruct (cascade_outcome cands); reflexivity. }
  split; [exact Hfst|]. split.
  { rewrite Hout. destruct (cascade_outcome cands); reflexivity. }
  split.
  { intros r Hr. rewrite Hout, Hr. unfold cached. cbn [snd heap].
    subst l. rewrite lookup_alter_last. reflexivity. }
  rewrite Hfst. subst cands. cbn [cascade_outcome]. split.
  { intros r ->. reflexivity. }
  split.
  { intros -> -> ->. reflexivity. }
  intros e He [H1 | [(H1 & H2) | (H1 & H2 & H3)]].
  - rewrite H1. destruct e; try reflexivity. congruence.
  - rewrite H1, H2. destruct e; try reflexivity. congruence.
  - rewrite H1, H2, H3. destruct e; try reflexivity. congruence.
Qed.

(** What a call of [receive_request] that returns has done. *)
Lemma receive_request_Ok (self : FirstPerson) (public : pyval) (l : loc)
  (st st' : state) (p : AsymRecord) :
  receive_request self public (PGARQ l) st = (Ok p, st') ->
  cached st l = Some p /\
  heap st' = alter (fun o => GARQ.set_plaintext o None) l (heap st).
Proof.
  unfold receive_request, bind, lift, as_GARQ, call, store_plaintext, ret,
    cached.
  destruct (_typecheck_thirdparty (fp_cls self) public); [|discriminate].
  destruct (heap st !! l) as [o|]; [|discriminate].
  cbn [fst snd]. destruct (GARQ._plaintext o); cbn; [|discriminate].
  destruct (_derive_shared self public); [|discriminate].
  destruct (_verify_mac _ _ _ _); [|discriminate].
  intros [= <- <-]. split; reflexivity.
Qed.

(** A call that raises leaves every envelope as it was. *)
Lemma receive_request_Raise (self : FirstPerson) (public request : pyval)
  (st st' : state) (e : exn) :
  receive_request self public request st = (Raise e, st') ->
  heap st' = heap st.
Proof.
  unfold receive_request, bind, lift, as_GARQ, call, store_plaintext, ret.
  destruct (_typecheck_thirdparty (fp_cls self) public);
    [|intros [= _ <-]; reflexivity].
  destruct request as [| | | | |l]; try (intros [= _ <-]; reflexivity).
  destruct (heap st !! l) as [o|]; [|intros [= _ <-]; reflexivity].
  cbn [fst snd]. destruct (GARQ._plaintext o); cbn;
    [|intros [= _ <-]; reflexivity].
  destruct (_derive_shared self public); [|intros [= _ <-]; reflexivity].
  destruct (_verify_mac _ _ _ _); [discriminate|].
  intros [= _ <-]; reflexivity.
Qed.

(** Without a cached plaintext the call is a usage error. *)
Lemma receive_request_uncached (self : FirstPerson) (public : pyval)
  (l : loc) (st : state) :
  cached st l = None ->
  receive_request self public (PGARQ l) st = (Raise TypeError, st).
Proof.
  unfold cached, receive_request, bind, lift, as_GARQ. intros H.
  destruct (_typecheck_thirdparty (fp_cls self) public) as [v|e] eqn:Ht.
  - destruct (heap st !! l) as [o|]; [|reflexivity].
    cbn [fst snd]. rewrite H. reflexivity.
  - unfold _typecheck_thirdparty in Ht.
    destruct public as [| | |t| |]; try (injection Ht as <-; reflexivity).
    destruct (negb _); [injection Ht as <-; reflexivity | discriminate].
Qed.

Lemma cached_after_delete (h : list GARQ.t) (tr : list event) (d : nat)
  (l : loc) :
  cached {| heap := alter (fun o => GARQ.set_plaintext o None) l h;
            trace := tr; draws := d |} l = None.
Proof.
  unfold cached. cbn [heap]. rewrite list_lookup_alter.
  case_decide; [|congruence]. destruct (h !! l); reflexivity.
Qed.

Lemma successes_uncached (calls : list (FirstPerson * pyval)) (l : loc)
  (st : state) :
  cached st l = None -> successes calls l st = 0.
Proof.
  intros H. induction calls as [|[self public] calls IH]; [reflexivity|].
  cbn [successes]. rewrite (receive_request_uncached self public l st H).
  exact IH.
Qed.

Lemma successes_at_most_once (calls : list (FirstPerson * pyval)) (l : loc)
  (st : state) :
  successes calls l st <= 1.
Proof.
  revert st. induction calls as [|[self public] calls IH]; intros st.
  - cbn. lia.
  - cbn [successes].
    destruct (receive_request self public (PGARQ l) st) as [[p|e] st'] eqn:H.
    + apply receive_request_Ok in H as [_ Hh].
      rewrite successes_uncached; [lia|].
      destruct st' as [h' tr' d']. cbn [heap] in Hh. subst h'.
      apply cached_after_delete.
    + apply IH.
Qed.

(** C3. A call of [receive_request] that returns found the plaintext
    cached in the envelope and deleted it; every later call on this
    envelope, whoever makes it and whatever sender it names, raises
    [TypeError] and changes nothing; hence of any series of calls on one
    envelope at most one returns. *)
Theorem receive_request_single_use (self : FirstPerson) (public : pyval)
  (l : loc) (st st' : state) (p : AsymRecord) :
  receive_request self public (PGARQ l) st = (Ok p, st') ->
  cached st l = Some p /\
  cached st' l = None /\
  (forall self2 public2,
      receive_request self2 public2 (PGARQ l) st' = (Raise TypeError, st')) /\
  (forall calls st0, successes calls l st0 <= 1).
Proof.
  intros H. apply receive_request_Ok in H as [Hc Hh].
  assert (Hn : cached st' l = None).
  { destruct st' as [h' tr' d']. cbn [heap] in Hh. subst h'.
    apply cached_after_delete. }
  split; [exact Hc|]. split; [exact Hn|]. split.
  - intros self2 public2. apply receive_request_uncached, Hn.
  - intros calls st0. apply successes_at_most_once.
Qed.

(** C9. When the MAC check of [receive_request] raises [SecurityError],
    the call raises it and the heap is left as it was: the envelope still
    caches its plaintext, and a later call naming a sender whose shared
    secret verifies the MAC returns that plaintext. *)
Theorem mac_failure_keeps_envelope (self : FirstPerson) (public : pyval)
  (l : loc) (st : state) (o : GARQ.t) (p : AsymRecord) (k : bytes) :
  _typecheck_thirdparty (fp_cls self) public = Ok true ->
  heap st !! l = Some o ->
  GARQ._plaintext o = Some p ->
  _derive_shared self public = Ok k ->
  _verify_mac (fp_cls self) k (GARQ.signature o) (address (GARQ.guid o))
  = Raise SecurityError ->
  let out := receive_request self public (PGARQ l) st in
  fst out = Raise SecurityError /\
  heap (snd out) = heap st /\
  cached (snd out) l = Some p /\
  forall self2 public2 k2,
    _typecheck_thirdparty (fp_cls self2) public2 = Ok true ->
    _derive_shared self2 public2 = Ok k2 ->
    _verify_mac (fp_cls self2) k2 (GARQ.signature o) (address (GARQ.guid o))
    = Ok true ->
    fst (receive_request self2 public2 (PGARQ l) (snd out)) = Ok p.
Proof.
  intros Ht Hl Hp Hk Hm out.
  assert (Hout : out = (Raise SecurityError,
                        {| heap := heap st;
                           trace := (trace st ++ [Call_derive_shared public])
                                    ++ [Call_verify_mac k (GARQ.signature o)
                                          (address (GARQ.guid o))];
                           draws := draws st |})).
  { subst out. unfold receive_request, bind, lift, as_GARQ, call.
    rewrite Ht, Hl. cbn [fst snd]. rewrite Hp. cbn. rewrite Hk, Hm.
    reflexivity. }
  rewrite Hout. cbn [fst snd heap].
  split; [reflexivity|]. split; [reflexivity|]. split.
  { unfold cached. cbn [heap]. rewrite Hl. exact Hp. }
  intros self2 public2 k2 Ht2 Hk2 Hm2.
  unfold receive_request, bind, lift, as_GARQ, call.
  rewrite Ht2. cbn [heap]. rewrite Hl. cbn [fst snd]. rewrite Hp. cbn.
  rewrite Hk2, Hm2. reflexivity.
Qed.
End Requests.

(** A packed ack: the handshake parser refuses it, the ack parser takes
    it, the nak parser is not asked. *)
Lemma unpack_request_cascade_witness :
  let p := [x02; x0a; x0c] in
  let out := unpack_request (E := Toy.env) Toy.bob (x00 :: p) Toy.st0 in
  fst out = Ok (Toy.guid_of 1 [x0a], 0) /\
  trace (snd out) =
  [Call_unpack K_GARQ (x00 :: p); Call_decrypt_asym p;
   Call_unpack K_GARQHandshake p; Call_unpack K_GARQAck p] /\
  cached (snd out) 0 =
  Some (AsymAck (Toy.guid_of 1 [x0a]) (Toy.guid_of 1 [x0c]) 1).
Proof.
  intros p out.
  pose proof (unpack_request_cascade (E := Toy.env) Toy.bob (x00 :: p)
                Toy.st0
                {| GARQ.recipient := Toy.guid_of 1 [];
                   GARQ.payload := p;
                   GARQ.guid := Toy.guid_of 1 p;
                   GARQ.signature := [x00];
                   GARQ._plaintext := None |}
                p eq_refl eq_refl) as (H1 & H2 & H3 & _).
  split; [exact H1|]. split; [exact H2|]. apply H3. reflexivity.
Defined.

(** Bob receives alice's envelope once; the envelope is then spent. *)
Lemma receive_request_single_use_witness :
  let out := receive_request (E := Toy.env) Toy.bob (PThird Toy.alice_pub)
               (PGARQ 0) Toy.st1 in
  fst out = Ok Toy.ack /\
  cached (snd out) 0 = None /\
  forall self2 public2,
    receive_request (E := Toy.env) self2 public2 (PGARQ 0) (snd out) =
    (Raise TypeError, snd out).
Proof.
  intros out.
  assert (H : receive_request (E := Toy.env) Toy.bob (PThird Toy.alice_pub)
                (PGARQ 0) Toy.st1 = (Ok Toy.ack, snd out))
    by (vm_compute; reflexivity).
  destruct (receive_request_single_use (E := Toy.env) Toy.bob
              (PThird Toy.alice_pub) 0 Toy.st1 (snd out) Toy.ack H)
    as (_ & H2 & H3 & _).
  split; [vm_compute; reflexivity|]. split; assumption.
Defined.

(** Bob names carol as the sender of alice's envelope: the MAC check
    fails; naming alice afterwards still works. *)
Lemma mac_failure_keeps_envelope_witness :
  let out := receive_request (E := Toy.env) Toy.bob (PThird Toy.carol_pub)
               (PGARQ 0) Toy.st1 in
  fst out = Raise SecurityError /\
  cached (snd out) 0 = Some Toy.ack /\
  fst (receive_request (E := Toy.env) Toy.bob (PThird Toy.alice_pub)
         (PGARQ 0) (snd out)) = Ok Toy.ack.
Proof.
  intros out.
  assert (Hk : _derive_shared (E := Toy.env) Toy.bob (PThird Toy.carol_pub)
               = Ok Toy.shared_bc) by (vm_compute; reflexivity).
  assert (Hm : _verify_mac (E := Toy.env) (fp_cls Toy.bob) Toy.shared_bc
                 (GARQ.signature Toy.envelope)
                 (address (GARQ.guid Toy.envelope)) = Raise SecurityError)
    by (vm_compute; reflexivity).
  destruct (mac_failure_keeps_envelope (E := Toy.env) Toy.bob
              (PThird Toy.carol_pub) 0 Toy.st1 Toy.envelope Toy.ack
              Toy.shared_bc eq_refl eq_refl eq_refl Hk Hm)
    as (H1 & _ & H3 & H4).
  split; [exact H1|]. split; [exact H3|].
  apply (H4 Toy.bob (PThird Toy.alice_pub) Toy.shared_ab).
  - reflexivity.
  - vm_compute. reflexivity.
  - vm_compute. reflexivity.
Defined.

(** * Further properties *)

(** ** The counter-mode cipher as a stream *)

Lemma byte_xor_same_key (x y k : byte) :
  byte_xor (byte_xor x k) (byte_xor y k) = byte_xor x y.
Proof.
  rewrite <- (Byte.of_bits_to_bits x), <- (Byte.of_bits_to_bits y),
    <- (Byte.of_bits_to_bits k).
  destruct (Byte.to_bits x) as (a0 & a1 & a2 & a3 & a4 & a5 & a6 & a7).
  destruct (Byte.to_bits y) as (b0 & b1 & b2 & b3 & b4 & b5 & b6 & b7).
  destruct (Byte.to_bits k) as (k0 & k1 & k2 & k3 & k4 & k5 & k6 & k7).
  unfold byte_xor. rewrite !Byte.to_bits_of_bits. f_equal.
  assert (H : forall a c d, xorb (xorb a d) (xorb c d) = xorb a c)
    by (intros [] [] []; reflexivity).
  rewrite !H. reflexivity.
Qed.

Lemma xor_bytes_same_key (x y ks : bytes) :
  length x <= length ks -> length y <= length ks ->
  xor_bytes (xor_bytes x ks) (xor_bytes y ks) = xor_bytes x y.
Proof.
  revert y ks. induction x as [|a x IH]; intros [|c y] [|k ks] Hx Hy;
    simpl in *; try reflexivity; try lia.
  rewrite byte_xor_same_key, IH; [reflexivity | lia | lia].
Qed.

Lemma xor_bytes_app_r (x ks rest : bytes) :
  length x <= length ks -> xor_bytes x (ks ++ rest) = xor_bytes x ks.
Proof.
  revert ks. induction x as [|a x IH]; intros [|k ks] H; simpl in *;
    try reflexivity; try lia.
  rewrite IH; [reflexivity | lia].
Qed.

Lemma xor_bytes_take (n : nat) (x ks : bytes) :
  xor_bytes (take n x) ks = take n (xor_bytes x ks).
Proof.
  revert x ks. induction n as [|n IH]; intros [|a x] [|k ks]; simpl;
    try reflexivity.
  rewrite IH. reflexivity.
Qed.

Lemma int_from_bytes_big_leading_zero (x : bytes) :
  int_from_bytes_big (x00 :: x) = int_from_bytes_big x.
Proof. reflexivity. Qed.

Section Stream.
Context `{E : External}.

Lemma keystream_extend (c : CtrMode) (n m : nat) :
  n <= m -> exists rest, keystream c m = keystream c n ++ rest.
Proof.
  intros H. replace m with (n + (m - n)) by lia. unfold keystream.
  rewrite seq_app, flat_map_app. eauto.
Qed.

Lemma blocks_for_mono (n m : nat) : n <= m -> blocks_for n <= blocks_for m.
Proof. intros H. unfold blocks_for. apply Nat.Div0.div_le_mono. lia. Qed.

(** Any key stream long enough gives the same ciphertext. *)
Lemma CtrMode_encrypt_any_stream (c : CtrMode) (x : bytes) (n : nat) :
  blocks_for (length x) <= n ->
  CtrMode_encrypt c x = xor_bytes x (keystream c n).
Proof.
  intros H. destruct (keystream_extend c _ _ H) as [rest ->].
  rewrite xor_bytes_app_r by apply keystream_cover. reflexivity.
Qed.

Lemma encrypt_with_cipher (s : Secret) (data : pydata) (p c : bytes) :
  coerce_bytes data = Ok p ->
  _encrypt CS1 (PSecret s) data = Ok c ->
  exists nonce,
    seed s = Some nonce /\
    AES_key_size_ok (length (key s)) = true /\
    (int_from_bytes_big nonce < 2 ^ 128)%N /\
    c = CtrMode_encrypt
          {| ctr_key := key s; ctr_initial := int_from_bytes_big nonce |} p.
Proof.
  unfold _encrypt, AES_new_CTR. intros -> H. cbn [rbind attr_seed attr_key] in H.
  destruct (seed s) as [nonce|]; [|discriminate]. cbn [seed_to_int rbind] in H.
  exists nonce. split; [reflexivity|].
  destruct (AES_key_size_ok (length (key s))); [|discriminate].
  cbn [negb] in H.
  destruct (N.leb_spec (2 ^ 128) (int_from_bytes_big nonce)); [discriminate|].
  cbn in H. injection H as <-. auto.
Qed.

(** X1. [FirstPersonIdentity1._encrypt] neither pads nor truncates: the
    ciphertext has exactly the length of the bytes it was given. *)
Theorem encrypt_preserves_length (secret : pyval) (data : pydata)
  (p c : bytes) :
  coerce_bytes data = Ok p ->
  _encrypt CS1 secret data = Ok c ->
  length c = length p.
Proof.
  intros Hp H. unfold _encrypt in H. rewrite Hp in H. cbn [rbind] in H.
  apply rbind_Ok in H as (s & _ & H). apply rbind_Ok in H as (n & _ & H).
  apply rbind_Ok in H as (k & _ & H). apply rbind_Ok in H as (ci & _ & H).
  injection H as <-. apply CtrMode_encrypt_length.
Qed.

(** X2. The cipher is a stream cipher: under one Secret, the ciphertext of
    the first [n] bytes of a plaintext is the first [n] bytes of the
    ciphertext of the whole plaintext. *)
Theorem encrypt_prefix (s : Secret) (p c : bytes) (n : nat) :
  _encrypt CS1 (PSecret s) (DBytes p) = Ok c ->
  _encrypt CS1 (PSecret s) (DBytes (take n p)) = Ok (take n c).
Proof.
  intros H.
  destruct (encrypt_with_cipher s (DBytes p) p c eq_refl H)
    as (nonce & Hs & Hk & Hn & ->).
  unfold _encrypt, AES_new_CTR. cbn [coerce_bytes rbind attr_seed attr_key].
  rewrite Hs. cbn [seed_to_int rbind]. rewrite Hk. cbn [negb].
  destruct (N.leb_spec (2 ^ 128) (int_from_bytes_big nonce)); [lia|].
  cbn [rbind]. f_equal.
  rewrite (CtrMode_encrypt_any_stream _ (take n p) (blocks_for (length p))).
  - unfold CtrMode_encrypt. apply xor_bytes_take.
  - apply blocks_for_mono. rewrite length_take. lia.
Qed.

(** X3. Reusing a Secret gives the key stream away: the exclusive or of
    two ciphertexts made with the same Secret is the exclusive or of the
    two plaintexts, whatever the key. *)
Theorem encrypt_secret_reuse (s : Secret) (p1 p2 c1 c2 : bytes) :
  _encrypt CS1 (PSecret s) (DBytes p1) = Ok c1 ->
  _encrypt CS1 (PSecret s) (DBytes p2) = Ok c2 ->
  xor_bytes c1 c2 = xor_bytes p1 p2.
Proof.
  intros H1 H2.
  destruct (encrypt_with_cipher s (DBytes p1) p1 c1 eq_refl H1)
    as (nonce & Hs & _ & _ & ->).
  destruct (encrypt_with_cipher s (DBytes p2) p2 c2 eq_refl H2)
    as (nonce' & Hs' & _ & _ & ->).
  rewrite Hs in Hs'. injection Hs' as <-.
  set (c := {| ctr_key := key s; ctr_initial := int_from_bytes_big nonce |}).
  set (n := Nat.max (blocks_for (length p1)) (blocks_for (length p2))).
  rewrite (CtrMode_encrypt_any_stream c p1 n) by (subst n; lia).
  rewrite (CtrMode_encrypt_any_stream c p2 n) by (subst n; lia).
  apply xor_bytes_same_key; rewrite keystream_length.
  - pose proof (blocks_for_cover (length p1)). subst n. lia.
  - pose proof (blocks_for_cover (length p2)). subst n. lia.
Qed.

(** X4. The nonce is read as a big-endian number, so leading zero bytes
    of the seed do not count: two Secrets whose seeds differ only by
    leading zero bytes encrypt every input alike. *)
Theorem encrypt_ignores_leading_zeros (cid : Z) (k nonce : bytes) (n : nat)
  (data : pydata) :
  _encrypt CS1 (PSecret {| cipher := cid; key := k;
                           seed := Some (repeat x00 n ++ nonce) |}) data =
  _encrypt CS1 (PSecret {| cipher := cid; key := k;
                           seed := Some nonce |}) data.
Proof.
  assert (Hn : int_from_bytes_big (repeat x00 n ++ nonce) =
               int_from_bytes_big nonce).
  { induction n as [|n IH]; [reflexivity|].
    cbn [repeat app]. rewrite int_from_bytes_big_leading_zero. exact IH. }
  unfold _encrypt. destruct (coerce_bytes data) as [x|e]; [|reflexivity].
  cbn [rbind attr_seed attr_key seed key seed_to_int]. rewrite Hn.
  reflexivity.
Qed.

(** X5. On bytes-like data [FirstPersonIdentity1._encrypt] returns
    exactly for the Secrets with an AES key length and a nonce below
    [2^128]; a Secret without seed gives [TypeError], any other unfit
    Secret [ValueError]. *)
Theorem encrypt_accepts_valid_secrets (s : Secret) (data : pydata)
  (p : bytes) :
  coerce_bytes data = Ok p ->
  match _encrypt CS1 (PSecret s) data with
  | Ok _ => valid_secret s = true
  | Raise e =>
      valid_secret s = false /\
      e = match seed s with None => TypeError | Some _ => ValueError end
  end.
Proof.
  intros Hp. unfold _encrypt, valid_secret, AES_new_CTR. rewrite Hp.
  cbn [rbind attr_seed attr_key].
  destruct (seed s) as [nonce|]; cbn [seed_to_int rbind].
  - destruct (AES_key_size_ok (length (key s))); cbn [negb andb].
    + destruct (N.leb_spec (2 ^ 128) (int_from_bytes_big nonce)) as [Hn|Hn];
        cbn [rbind].
      * split; [|reflexivity]. apply N.ltb_ge. exact Hn.
      * apply N.ltb_lt. exact Hn.
    + cbn. auto.
  - split; [|reflexivity]. apply andb_false_r.
Qed.
End Stream.

(** ** Verification *)

Section Verification.
Context `{E : External} `{P : Packers}.

(** X6. A MAC made by [_mac] passes [_verify_mac] under the same key and
    data, in both suites; in CipherSuite-1 every other tag is refused with
    [SecurityError]. *)
Theorem mac_round_trip (cls : suite) (k d : bytes) :
  _verify_mac cls k (_mac cls k d) d = Ok true /\
  forall m, m <> _mac CS1 k d -> _verify_mac CS1 k m d = Raise SecurityError.
Proof.
  split.
  - destruct cls; [reflexivity|]. unfold _verify_mac, _mac, bytes_eqb.
    rewrite bool_decide_eq_true_2 by reflexivity. reflexivity.
  - intros m Hm. unfold _verify_mac, _mac, bytes_eqb in *.
    rewrite bool_decide_eq_false_2 by congruence. reflexivity.
Qed.

(** X7. Verification never answers with a silent [False]: [_verify] and
    [_verify_mac] return [True] or raise, for either suite and every
    input. *)
Theorem verification_never_returns_false (self : FirstPerson)
  (public : pyval) (sig data k m : bytes) (cls : suite) :
  _verify self public sig data <> Ok false /\
  _verify_mac cls k m data <> Ok false.
Proof.
  split.
  - unfold _verify.
    destruct (fp_cls self);
      destruct (_typecheck_thirdparty _ public); cbn [rbind];
      try discriminate.
    destruct (_FrozenSHA512 data); cbn [rbind]; try discriminate.
    destruct (attr_base public); cbn [rbind]; try discriminate.
    destruct (PSS_verify _ _ _) as [u|e]; cbn [reraise rbind];
      try discriminate.
    destruct (is_ValueError e); discriminate.
  - unfold _verify_mac. destruct cls; [discriminate|].
    destruct (bytes_eqb _ _); cbn [reraise rbind is_ValueError]; discriminate.
Qed.

(** X8. The null suite authenticates nothing: for a sender of its own
    class, [receive_object] returns the placeholder plaintext for every
    object, signature and secret, and [receive_request] returns the cached
    plaintext of every envelope, whatever its MAC. *)
Theorem null_suite_accepts_everything (self : FirstPerson) (pub : ThirdPerson)
  (secret : pyval) (g : GEOC.t) (l : loc) (p : AsymRecord) (st : state) :
  fp_cls self = CS0 ->
  tp_cls pub = CS0 ->
  fst (receive_object self (PThird pub) secret (PGEOC g) st) =
  Ok (GEOC.guid g,
      b "[[ PLACEHOLDER DECRYPTED SYMMETRIC MESSAGE. Hello world! ]]") /\
  (cached st l = Some p ->
   fst (receive_request self (PThird pub) (PGARQ l) st) = Ok p).
Proof.
  intros Hs Hp. split.
  - unfold receive_object, bind, call, ret, _verify, _decrypt,
      _typecheck_thirdparty. rewrite Hs, Hp. reflexivity.
  - assert (Ht : _typecheck_thirdparty CS0 (PThird pub) = Ok true)
      by (unfold _typecheck_thirdparty; rewrite Hp; reflexivity).
    unfold cached, receive_request, bind, lift, call, ret, as_GARQ,
      _derive_shared, _verify_mac.
    rewrite Hs, Ht.
    destruct (heap st !! l) as [o|]; [|discriminate]. cbn [fst snd].
    intros ->. reflexivity.
Qed.

(** X9. [receive_object] answers a sender that is not a third-person
    identity of the receiver's own suite with [TypeError], and in
    CipherSuite-1 an object whose address is not 64 bytes long with
    [ValueError] rather than [SecurityError]; in both cases [_verify] is
    the only call made. *)
Theorem receive_object_argument_errors (self : FirstPerson)
  (public secret : pyval) (g : GEOC.t) (st : state) :
  let out := receive_object self public secret (PGEOC g) st in
  let verify := Call_verify public (GEOC.signature g)
                  (address (GEOC.guid g)) in
  ((forall t, public = PThird t -> tp_cls t <> fp_cls self) ->
   fst out = Raise TypeError /\ trace (snd out) = trace st ++ [verify]) /\
  (fp_cls self = CS1 ->
   (exists t, public = PThird t /\ tp_cls t = CS1) ->
   length (address (GEOC.guid g)) <> SHA512_digest_size ->
   fst out = Raise ValueError /\ trace (snd out) = trace st ++ [verify]).
Proof.
  intros out verify. subst out. unfold receive_object, bind, call, ret.
  cbn [fst snd trace]. split.
  - intros H.
    assert (Hv : _verify self public (GEOC.signature g)
                   (address (GEOC.guid g)) = Raise TypeError).
    { unfold _verify, _typecheck_thirdparty.
      destruct public as [| | |t| |];
        try (destruct (fp_cls self); reflexivity).
      specialize (H t eq_refl).
      rewrite bool_decide_eq_false_2
        by (destruct (fp_cls self); exact H).
      destruct (fp_cls self); reflexivity. }
    rewrite Hv. auto.
  - intros Hs (t & -> & Ht) Hlen.
    assert (Hv : _verify self (PThird t) (GEOC.signature g)
                   (address (GEOC.guid g)) = Raise ValueError).
    { unfold _verify, _typecheck_thirdparty, _FrozenSHA512.
      rewrite Hs, Ht. cbn.
      destruct (Nat.eqb_spec (length (address (GEOC.guid g)))
                  SHA512_digest_size); [contradiction|reflexivity]. }
    rewrite Hv. auto.
Qed.

(** X10. [make_object] refuses a Secret tagged for another suite, but
    [receive_object] never looks at the tag: Secrets with the same key and
    seed give the same outcome whatever their ciphersuite id. *)
Theorem receive_object_ignores_cipher_tag (self : FirstPerson)
  (public : pyval) (g : GEOC.t) (st : state) (cid cid' : Z) (k : bytes)
  (sd : option bytes) (plaintext : pydata) :
  fst (receive_object self public
         (PSecret {| cipher := cid; key := k; seed := sd |}) (PGEOC g) st) =
  fst (receive_object self public
         (PSecret {| cipher := cid'; key := k; seed := sd |}) (PGEOC g) st) /\
  (cid <> ciphersuite self ->
   fst (make_object self (PSecret {| cipher := cid; key := k; seed := sd |})
          plaintext st) = Raise TypeError).
Proof.
  split.
  - unfold receive_object, bind, call, ret.
    destruct (_verify self public _ _); [|reflexivity].
    assert (Hd : _decrypt (fp_cls self)
                   (PSecret {| cipher := cid; key := k; seed := sd |})
                   (GEOC.payload g) =
                 _decrypt (fp_cls self)
                   (PSecret {| cipher := cid'; key := k; seed := sd |})
                   (GEOC.payload g))
      by (destruct (fp_cls self); reflexivity).
    rewrite Hd. destruct (_decrypt _ _ _); reflexivity.
  - intros H. unfold make_object, _typecheck_secret. cbn [cipher].
    destruct (Z.eqb_spec cid (_ciphersuite (fp_cls self))); [contradiction|].
    reflexivity.
Qed.
End Verification.

(** ** Keys, secrets and construction *)

Lemma byte_of_N_value (n : N) : Byte.to_N (byte_of_N n) = (n mod 256)%N.
Proof.
  unfold byte_of_N. destruct (Byte.of_N (n mod 256)) as [x|] eqn:H.
  - apply Byte.to_of_N. exact H.
  - apply Byte.of_N_None_iff in H.
    pose proof (N.mod_upper_bound n 256). lia.
Qed.

Lemma int_from_bytes_big_snoc (x : bytes) (a : byte) :
  int_from_bytes_big (x ++ [a]) =
  (int_from_bytes_big x * 256 + Byte.to_N a)%N.
Proof. unfold int_from_bytes_big. rewrite fold_left_app. reflexivity. Qed.

(** [int.from_bytes] reads back what [int.to_bytes] wrote. *)
Lemma int_from_to_bytes_big (len : nat) (n : N) :
  int_from_bytes_big (N_to_bytes_big len n) = (n mod 256 ^ N.of_nat len)%N.
Proof.
  revert n. induction len as [|len IH]; intros n.
  - cbn. rewrite N.mod_1_r. reflexivity.
  - unfold N_to_bytes_big in *. cbn [N_to_bytes_little rev].
    rewrite int_from_bytes_big_snoc, IH, byte_of_N_value.
    rewrite Nat2N.inj_succ, N.pow_succ_r'.
    rewrite (N.Div0.mod_mul_r n 256). lia.
Qed.

Lemma bundle_lookup_signature (sk ek xk : keyobj) :
  bundle sk ek xk !! "signature" = Some sk.
Proof. unfold bundle. by simplify_map_eq. Qed.

Lemma bundle_lookup_encryption (sk ek xk : keyobj) :
  bundle sk ek xk !! "encryption" = Some ek.
Proof. unfold bundle. by simplify_map_eq. Qed.

Lemma bundle_lookup_exchange (sk ek xk : keyobj) :
  bundle sk ek xk !! "exchange" = Some xk.
Proof. unfold bundle. by simplify_map_eq. Qed.

Section Keys.
Context `{E : External}.

(** X11. The constructor of a first-person identity checks its address
    algorithm first and its key arguments second, before any key is
    generated: an id outside [ADDRESS_ALGOS] gives [ValueError] whatever
    the other arguments, and keys without author guid (or the reverse)
    give [TypeError]; the state is left as it was. *)
Theorem constructor_checks_arguments_first (cls : suite) (keys : pydict)
  (g : option Guid) (a : algo_arg) (st : state) :
  (forall z, a = Algo z -> z ∉ ADDRESS_ALGOS ->
     FirstPerson_init cls keys g a st = (Raise ValueError, st)) /\
  (forall z, _dispatch_address a = Ok z ->
     (keys = None <-> g <> None) ->
     FirstPerson_init cls keys g a st = (Raise TypeError, st)).
Proof.
  split.
  - intros z -> Hz. unfold FirstPerson_init, bind, lift, _dispatch_address.
    rewrite bool_decide_eq_false_2 by exact Hz. reflexivity.
  - intros z Hz Hk. unfold FirstPerson_init, bind, lift. rewrite Hz.
    destruct keys as [d|], g as [g|]; try reflexivity.
    + exfalso. destruct Hk as [_ Hk]. discriminate Hk. discriminate.
    + exfalso. destruct Hk as [Hk _]. apply Hk; reflexivity.
Qed.

(** X12. A generated CipherSuite-1 identity keeps the key objects it
    generated, private parts included: its signature and encryption keys
    are the two RSA keys generated at the current place of the entropy
    stream and its exchange key is the private key made of the next 32
    bytes.  Its third-person identity gets the public halves only: the
    same RSA moduli and exponents without private exponent and the public
    point of the exchange secret.  The author guid of both is the guid
    that the GIDC of the packed public keys got, and the third-person
    identity holds that GIDC. *)
Theorem generated_third_party_is_public (a : algo_arg) (st st' : state)
  (self : FirstPerson) :
  FirstPerson_init CS1 None None a st = (Ok self, st') ->
  let sk := RSA_generate 4096 (draws st) in
  let ek := RSA_generate 4096 (draws st + 1) in
  let xs := map entropy (seq (draws st + 2) 32) in
  _signature_key (fp_base self) = sk /\
  _encryption_key (fp_base self) = ek /\
  _exchange_key (fp_base self) = KEcdhPrivate xs /\
  draws st' = draws st + 34 /\
  exists pub n1 e1 d1 n2 e2 d2 gidc,
    sk = KRsa n1 e1 d1 /\ ek = KRsa n2 e2 d2 /\
    third_party self = Ok pub /\ tp_cls pub = CS1 /\
    _signature_key (tp_base pub) = KRsa n1 e1 None /\
    _encryption_key (tp_base pub) = KRsa n2 e2 None /\
    _exchange_key (tp_base pub) = KEcdhPublic (get_public xs) /\
    GIDC_pack (KBytes (N_to_bytes_big 512 n1)) (KBytes (N_to_bytes_big 512 n2))
      (KBytes (get_public xs)) 1 (address_algo self) = Ok gidc /\
    author_guid self = fst gidc /\
    _author_guid (tp_base pub) = fst gidc /\
    packed pub = Some (snd gidc).
Proof.
  intros H sk ek xs.
  unfold FirstPerson_init, bind, lift in H.
  destruct (_dispatch_address a) as [algo|]; [|discriminate].
  unfold _generate_keys, get_random_bytes in H.
  unfold bind, draw, ret in H. cbn [heap trace draws] in H.
  replace (draws st + 1 + 1) with (draws st + 2) in H by lia.
  fold sk ek xs in H.
  destruct (_generate_third_person CS1 (bundle sk ek (KEcdhPrivate xs)) algo)
    as [third|] eqn:Ht; [|discriminate].
  rewrite IdentityBase_init_bundle in H. injection H as <- <-.
  cbn [fp_base _signature_key _encryption_key _exchange_key draws].
  split; [reflexivity|]. split; [reflexivity|]. split; [reflexivity|].
  split; [lia|].
  cbn [_generate_third_person] in Ht. unfold getitem in Ht.
  rewrite bundle_lookup_signature, bundle_lookup_encryption,
    bundle_lookup_exchange in Ht.
  cbn [rbind] in Ht.
  destruct sk as [|n1 e1 d1| |]; try discriminate.
  destruct ek as [|n2 e2 d2| |]; try discriminate.
  cbn [publickey key_get_public rbind _3PID] in Ht.
  unfold from_keys, _pack_keys in Ht.
  rewrite bundle_signature, bundle_encryption, bundle_exchange in Ht.
  cbn [rbind attr_n attr_public] in Ht.
  unfold int_to_bytes_big in Ht.
  destruct (n1 <? _)%N; [|discriminate]. cbn [rbind] in Ht.
  destruct (n2 <? _)%N; [|discriminate]. cbn [rbind reraise] in Ht.
  rewrite bundle_signature, bundle_encryption, bundle_exchange in Ht.
  cbn [rbind _ciphersuite] in Ht.
  destruct (GIDC_pack _ _ _ 1 algo) as [gidc|] eqn:Hg; [|discriminate].
  cbn [rbind] in Ht. rewrite IdentityBase_init_bundle in Ht.
  cbn [rbind] in Ht. injection Ht as <-.
  exists {| tp_cls := CS1;
            tp_base := {| _author_guid := fst gidc;
                          _signature_key := KRsa n1 e1 None;
                          _encryption_key := KRsa n2 e2 None;
                          _exchange_key := KEcdhPublic (get_public xs) |};
            packed := Some (snd gidc) |}, n1, e1, d1, n2, e2, d2, gidc.
  cbn [third_party _third_party tp_cls tp_base fp_base packed author_guid
       address_algo _author_guid _signature_key _encryption_key
       _exchange_key].
  repeat split; first [assumption | reflexivity].
Qed.

(** X13. [ThirdPersonIdentity1._pack_keys] writes each RSA modulus as 512
    big-endian bytes that read back as the modulus, so different moduli
    never pack alike, and passes the exchange key's bytes on as they
    are. *)
Theorem pack_keys_moduli_read_back (d : gmap string keyobj) (out : pydict)
  (n1 e1 n2 e2 : N) (d1 d2 : option N) (xk : keyobj) :
  d !! "signature" = Some (KRsa n1 e1 d1) ->
  d !! "encryption" = Some (KRsa n2 e2 d2) ->
  d !! "exchange" = Some xk ->
  _pack_keys CS1 (Some d) = Ok out ->
  exists sb eb xb,
    out = Some (bundle (KBytes sb) (KBytes eb) (KBytes xb)) /\
    length sb = 512 /\ int_from_bytes_big sb = n1 /\
    length eb = 512 /\ int_from_bytes_big eb = n2 /\
    xk = KEcdhPublic xb.
Proof.
  intros Hs He Hx. unfold _pack_keys, getitem. rewrite Hs, He, Hx.
  cbn [rbind attr_n]. unfold int_to_bytes_big.
  replace (N.of_nat 512) with 512%N by reflexivity.
  destruct (N.ltb_spec n1 (256 ^ 512)) as [H1|]; [|discriminate].
  cbn [rbind].
  destruct (N.ltb_spec n2 (256 ^ 512)) as [H2|]; [|discriminate].
  cbn [rbind]. destruct xk as [| | |xb]; try discriminate.
  cbn [attr_public rbind]. intros [= <-].
  exists (N_to_bytes_big 512 n1), (N_to_bytes_big 512 n2), xb.
  rewrite !N_to_bytes_big_length, !int_from_to_bytes_big.
  replace (N.of_nat 512) with 512%N by reflexivity.
  rewrite !N.mod_small by assumption. auto 10.
Qed.

(** X14. The guard of [from_keys] only translates [KeyError] and
    [TypeError]: in CipherSuite-1 an RSA modulus of more than 4096 bits
    leaves it as [OverflowError] and a signature key without modulus as
    [AttributeError], while a bundle that is [None] gives
    [RuntimeError]. *)
Theorem from_keys_other_errors_escape (d : gmap string keyobj) (a : Z) :
  (forall n e x, d !! "signature" = Some (KRsa n e x) ->
     (2 ^ 4096 <= n)%N ->
     from_keys CS1 (Some d) a = Raise OverflowError) /\
  (forall x, d !! "signature" = Some (KBytes x) ->
     from_keys CS1 (Some d) a = Raise AttributeError) /\
  from_keys CS1 None a = Raise RuntimeError.
Proof.
  split; [|split].
  - intros n e x Hs Hn. unfold from_keys, _pack_keys, getitem. rewrite Hs.
    cbn [rbind attr_n]. unfold int_to_bytes_big.
    replace (N.of_nat 512) with 512%N by reflexivity.
    destruct (N.ltb_spec n (256 ^ 512)) as [H|H]; [|reflexivity].
    exfalso. replace (256 ^ 512)%N with (2 ^ 4096)%N in H; [lia|].
    change 256%N with (2 ^ 8)%N. rewrite <- N.pow_mul_r. reflexivity.
  - intros x Hs. unfold from_keys, _pack_keys, getitem. rewrite Hs.
    reflexivity.
  - reflexivity.
Qed.

(** X15. A Secret made by [new_secret] has a 32-byte key and carries the
    id of the suite that made it: that suite's [make_object] check accepts
    it and the other suite's refuses it.  A CipherSuite-1 Secret has a
    16-byte seed and is one that the cipher accepts; the null suite's has
    no seed, and CipherSuite-1 answers it with [TypeError]. *)
Theorem new_secret_belongs_to_its_suite (cls : suite) (st : state) :
  exists s st',
    new_secret cls st = (Ok s, st') /\
    length (key s) = 32 /\
    (forall cls', _typecheck_secret cls' (PSecret s)
                  = bool_decide (cls' = cls)) /\
    match cls with
    | CS1 => valid_secret s = true /\
             exists nonce, seed s = Some nonce /\ length nonce = 16
    | CS0 => seed s = None /\
             forall x, _encrypt CS1 (PSecret s) (DBytes x) = Raise TypeError
    end.
Proof.
  destruct cls.
  - eexists _, _. split; [reflexivity|]. cbn [key seed].
    split; [reflexivity|]. split; [intros []; reflexivity|].
    split; reflexivity.
  - destruct (new_secret_valid st) as (s & st' & Hs & Hv & Hc).
    exists s, st'. split; [exact Hs|].
    unfold new_secret, bind, get_random_bytes, draw, ret in Hs.
    injection Hs as <- _. cbn [key seed cipher].
    split; [reflexivity|]. split; [intros []; reflexivity|].
    split; [exact Hv|]. eexists. split; reflexivity.
Qed.
End Keys.

(** ** Requests, bindings and whole exchanges *)

Section Exchanges.
Context `{E : External} `{P : Packers}.

Lemma typecheck_thirdparty_accepts (cls : suite) (t : ThirdPerson) :
  tp_cls t = cls -> _typecheck_thirdparty cls (PThird t) = Ok true.
Proof.
  intros <-. unfold _typecheck_thirdparty.
  rewrite bool_decide_eq_true_2 by (destruct (tp_cls t); reflexivity).
  reflexivity.
Qed.

Lemma typecheck_thirdparty_rejects (cls : suite) (obj : pyval) :
  (forall t, obj = PThird t -> tp_cls t <> cls) ->
  _typecheck_thirdparty cls obj = Raise TypeError.
Proof.
  intros H. unfold _typecheck_thirdparty.
  destruct obj as [| | |t| |]; try reflexivity.
  rewrite bool_decide_eq_false_2; [reflexivity|].
  specialize (H t eq_refl). destruct cls; exact H.
Qed.

(** The whole outcome of [unpack_request], state included. *)
Lemma unpack_request_run (self : FirstPerson) (packed : bytes) (st : state)
  (o : GARQ.t) (p : bytes) :
  GARQ_unpack packed = Ok o ->
  _decrypt_asym self (GARQ.payload o) = Ok p ->
  let cands := [as_handshake p; as_ack p; as_nak p] in
  let tr := trace st ++
            [Call_unpack K_GARQ packed; Call_decrypt_asym (GARQ.payload o)] ++
            take (cascade_attempts cands)
              [Call_unpack K_GARQHandshake p; Call_unpack K_GARQAck p;
               Call_unpack K_GARQNak p] in
  unpack_request self packed st =
  match cascade_outcome cands with
  | Ok r =>
      (Ok (record_author r, length (heap st)),
       {| heap := alter (fun o => GARQ.set_plaintext o (Some r))
                    (length (heap st)) (heap st ++ [o]);
          trace := tr; draws := draws st |})
  | Raise e =>
      (Raise e, {| heap := heap st ++ [o]; trace := tr; draws := draws st |})
  end.
Proof.
  intros Ho Hp cands tr. subst tr.
  unfold unpack_request, bind at 1, call at 1. rewrite Ho.
  unfold bind at 1, alloc. unfold bind at 1, call at 1.
  cbn [heap trace draws]. rewrite Hp. unfold bind at 1.
  rewrite parse_request_cascade. fold cands. cbn [heap trace draws].
  destruct (cascade_outcome cands) as [r|e].
  - unfold bind, store_plaintext, ret. cbn [heap trace draws].
    rewrite <- !app_assoc. reflexivity.
  - rewrite <- !app_assoc. reflexivity.
Qed.

(** X16. Failures before the cascade are not turned into
    [SecurityError]: what [GARQ.unpack] raises on the packed envelope,
    [ParseError] included, and what the asymmetric decryptor raises on its
    payload leave [unpack_request] unchanged, and no inner parser is
    tried. *)
Theorem unpack_request_early_errors (self : FirstPerson) (packed : bytes)
  (st : state) (e : exn) :
  let out := unpack_request self packed st in
  (GARQ_unpack packed = Raise e ->
   fst out = Raise e /\
   trace (snd out) = trace st ++ [Call_unpack K_GARQ packed] /\
   heap (snd out) = heap st) /\
  (forall o, GARQ_unpack packed = Ok o ->
     _decrypt_asym self (GARQ.payload o) = Raise e ->
     fst out = Raise e /\
     trace (snd out) = trace st ++ [Call_unpack K_GARQ packed;
                                    Call_decrypt_asym (GARQ.payload o)]).
Proof.
  intros out. subst out. split.
  - intros H. unfold unpack_request, bind, call. rewrite H. auto.
  - intros o Ho Hd. unfold unpack_request, bind, call, alloc.
    rewrite Ho. cbn [heap trace draws]. rewrite Hd. cbn [fst snd trace].
    rewrite <- app_assoc. auto.
Qed.

(** X17. In the null suite [unpack_request] never reads the payload: it
    parses the placeholder [_dummy_asym], so every envelope that unpacks
    has the same outcome. *)
Theorem null_suite_unpack_ignores_payload (self : FirstPerson)
  (packed packed' : bytes) (o o' : GARQ.t) (st : state) :
  fp_cls self = CS0 ->
  GARQ_unpack packed = Ok o ->
  GARQ_unpack packed' = Ok o' ->
  fst (unpack_request self packed st) =
  (r <- cascade_outcome [as_handshake _dummy_asym; as_ack _dummy_asym;
                         as_nak _dummy_asym] ;;
   Ok (record_author r, length (heap st)))%result /\
  fst (unpack_request self packed st) = fst (unpack_request self packed' st).
Proof.
  intros Hs Ho Ho'.
  assert (Hd : forall x, _decrypt_asym self x = Ok _dummy_asym)
    by (intros x; unfold _decrypt_asym; rewrite Hs; reflexivity).
  rewrite (unpack_request_run self packed st o _ Ho (Hd _)).
  rewrite (unpack_request_run self packed' st o' _ Ho' (Hd _)).
  destruct (cascade_outcome _); split; reflexivity.
Qed.

(** X18. [make_request], [make_ack] and [make_nak] check the recipient
    first: for anything but a third-person identity of the sender's own
    suite they raise [TypeError] before a record is packed or encrypted,
    and leave the state as it was. *)
Theorem asymmetric_makers_check_recipient (self : FirstPerson)
  (secret recipient : pyval) (target : Guid) (status : Z) (st : state) :
  (forall t, recipient = PThird t -> tp_cls t <> fp_cls self) ->
  make_request self secret target recipient st = (Raise TypeError, st) /\
  make_ack self target recipient status st = (Raise TypeError, st) /\
  make_nak self target recipient status st = (Raise TypeError, st).
Proof.
  intros H. apply typecheck_thirdparty_rejects in H.
  unfold make_request, make_ack, make_nak, bind, lift. rewrite H. auto.
Qed.

(** What a call of [_sign] that returns has done: nothing in the null
    suite; in CipherSuite-1 it has signed 64-byte data with a salt of 64
    bytes read from the entropy stream. *)
Lemma _sign_Ok (self : FirstPerson) (data sig : bytes) (st st' : state) :
  _sign self data st = (Ok sig, st') ->
  heap st' = heap st /\ trace st' = trace st /\
  match fp_cls self with
  | CS0 => sig = _dummy_signature /\ draws st' = draws st
  | CS1 =>
      length data = SHA512_digest_size /\
      PSS_sign (_signature_key (fp_base self)) data
        (map entropy (seq (draws st) 64)) = Ok sig /\
      draws st' = draws st + 64
  end.
Proof.
  unfold _sign. destruct (fp_cls self).
  - unfold ret. intros [= <- <-]. auto.
  - unfold bind, lift, get_random_bytes, draw, _FrozenSHA512,
      _PSS_SALT_LENGTH.
    destruct (Nat.eqb_spec (length data) SHA512_digest_size) as [Hl|];
      [|discriminate].
    cbn [negb heap trace draws]. change SHA512_digest_size with 64.
    destruct (PSS_sign _ _ _) as [x|] eqn:Hs; [|discriminate].
    intros [= <- <-]. cbn [heap trace draws]. auto.
Qed.

(** Signing succeeds on 64-byte data only, which is what verification
    asks for. *)
Lemma verify_after_sign (self other : FirstPerson) (pub : ThirdPerson)
  (data sig : bytes) (st st' : state) :
  fp_cls other = fp_cls self ->
  tp_cls pub = fp_cls self ->
  _sign self data st = (Ok sig, st') ->
  (fp_cls self = CS1 ->
   PSS_verify (_signature_key (tp_base pub)) data sig = Ok tt) ->
  _verify other (PThird pub) sig data = Ok true.
Proof.
  intros Ho Hp Hs Hv. apply _sign_Ok in Hs as (_ & _ & Hs).
  unfold _verify. rewrite Ho.
  rewrite (typecheck_thirdparty_accepts _ _ Hp).
  destruct (fp_cls self); [reflexivity|]. destruct Hs as (Hl & _ & _).
  unfold _FrozenSHA512. rewrite Hl, Nat.eqb_refl.
  cbn [negb rbind attr_base]. rewrite (Hv eq_refl). reflexivity.
Qed.

(** X19. A static binding, a dynamic binding and a debinding are each
    returned with the guid that packing gave the record and with a
    signature over that guid's address attached to the packing: the null
    suite's placeholder, or in CipherSuite-1 the PSS signature of the
    64-byte address under the maker's signature key and a salt of 64 bytes
    read from the entropy stream.  A receiver of the same suite that holds
    the maker's public identity verifies this signature whenever the
    signature scheme accepts it.  No envelope on the heap is touched; the
    entropy stream moves on by the salt. *)
Theorem bindings_are_signed (self other : FirstPerson) (pub : ThirdPerson)
  (target : Guid) (dyn : option Guid) (history : option (list Guid))
  (st : state) :
  fp_cls other = fp_cls self ->
  tp_cls pub = fp_cls self ->
  let signed g sig st' :=
    heap st' = heap st /\
    match fp_cls self with
    | CS0 => sig = _dummy_signature /\ draws st' = draws st
    | CS1 =>
        length (address g) = SHA512_digest_size /\
        PSS_sign (_signature_key (fp_base self)) (address g)
          (map entropy (seq (draws st) 64)) = Ok sig /\
        draws st' = draws st + 64
    end /\
    ((fp_cls self = CS1 ->
      PSS_verify (_signature_key (tp_base pub)) (address g) sig = Ok tt) ->
     _verify other (PThird pub) sig (address g) = Ok true) in
  (forall g packed st',
     make_bind_static self target st = (Ok (g, packed), st') ->
     exists body sig,
       GOBS_pack (author_guid self) target (ciphersuite self)
         (address_algo self) = Ok (g, body) /\
       GOBS_pack_signature body sig = Ok packed /\ signed g sig st') /\
  (forall g packed d st',
     make_bind_dynamic self target dyn history st = (Ok (g, packed, d), st') ->
     exists body sig,
       GOBD_pack (author_guid self) target dyn history (ciphersuite self)
         (address_algo self) = Ok (g, body, d) /\
       GOBD_pack_signature body sig = Ok packed /\ signed g sig st') /\
  (forall g packed st',
     make_debind self target st = (Ok (g, packed), st') ->
     exists body sig,
       GDXX_pack (author_guid self) target (ciphersuite self)
         (address_algo self) = Ok (g, body) /\
       GDXX_pack_signature body sig = Ok packed /\ signed g sig st').
Proof.
  intros Ho Hp signed.
  assert (Hsigned : forall g sig st',
            _sign self (address g) st = (Ok sig, st') -> signed g sig st').
  { intros g sig st' Hs. pose proof (_sign_Ok _ _ _ _ _ Hs) as (Hh & _ & Hm).
    split; [exact Hh|]. split; [exact Hm|]. intros Hv.
    exact (verify_after_sign self other pub _ _ _ _ Ho Hp Hs Hv). }
  split; [|split].
  - intros g packed st'. unfold make_bind_static, bind, lift, ret.
    destruct (GOBS_pack _ _ _ _) as [[g0 body]|]; [|discriminate].
    cbn [fst snd].
    destruct (_sign self (address g0) st) as [[sig|] st1] eqn:Hs;
      [|discriminate].
    destruct (GOBS_pack_signature body sig) as [pk|] eqn:Ha; [|discriminate].
    intros [= <- <- <-]. exists body, sig. auto.
  - intros g packed d st'. unfold make_bind_dynamic, bind, lift, ret.
    destruct (GOBD_pack _ _ _ _ _ _) as [[[g0 body] d0]|]; [|discriminate].
    cbn [fst snd].
    destruct (_sign self (address g0) st) as [[sig|] st1] eqn:Hs;
      [|discriminate].
    destruct (GOBD_pack_signature body sig) as [pk|] eqn:Ha; [|discriminate].
    intros [= <- <- <- <-]. exists body, sig. auto.
  - intros g packed st'. unfold make_debind, bind, lift, ret.
    destruct (GDXX_pack _ _ _ _) as [[g0 body]|]; [|discriminate].
    cbn [fst snd].
    destruct (_sign self (address g0) st) as [[sig|] st1] eqn:Hs;
      [|discriminate].
    destruct (GDXX_pack_signature body sig) as [pk|] eqn:Ha; [|discriminate].
    intros [= <- <- <-]. exists body, sig. auto.
Qed.
End Exchanges.

Section EndToEnd.
Context `{E : External} `{P : Packers}.

(** Both sides of a CipherSuite-1 pair derive the same key. *)
Lemma derive_shared_agree (A B : FirstPerson) (A3 B3 : ThirdPerson)
  (k : bytes) :
  exchange_commutes ->
  fp_cls A = CS1 -> fp_cls B = CS1 ->
  public_of A A3 -> public_of B B3 ->
  _derive_shared A (PThird B3) = Ok k ->
  _derive_shared B (PThird A3) = Ok k.
Proof.
  intros Hx HA HB (_ & HgA & HkA) (_ & HgB & HkB).
  specialize (HkA HA). specialize (HkB HB).
  unfold _derive_shared. rewrite HA, HB. cbn [attr_base rbind].
  destruct (_exchange_key (fp_base A)) as [| | skA |]; try discriminate.
  destruct (_exchange_key (fp_base B)) as [| | skB |]; try discriminate.
  cbn in HkA, HkB. injection HkA as <-. injection HkB as <-.
  cbn [rbind]. rewrite (Hx skB skA), HgA, HgB.
  unfold shared_salt. rewrite (xor_bytes_comm (address (author_guid B))).
  auto.
Qed.

(** X20. An object travels: when alice makes an object from a plaintext
    with a Secret of her suite, the packing unpacks to the guid, payload
    and signature that went in, and the signature scheme accepts alice's
    signature under her public key, then bob, unpacking the packing and
    receiving it with alice's public identity and the same Secret, gets
    the guid alice got and the plaintext. *)
Theorem object_end_to_end_suite1 (alice bob : FirstPerson)
  (alice_pub : ThirdPerson) (s : Secret) (data : pydata)
  (p c body sig packed : bytes) (g : Guid) (h : GEOC.t) (st : state) :
  fp_cls alice = CS1 -> fp_cls bob = CS1 -> tp_cls alice_pub = CS1 ->
  cipher s = 1%Z ->
  coerce_bytes data = Ok p ->
  _encrypt CS1 (PSecret s) data = Ok c ->
  GEOC_pack (author_guid alice) c 1 (address_algo alice) = Ok (g, body) ->
  length (address g) = SHA512_digest_size ->
  PSS_sign (_signature_key (fp_base alice)) (address g)
    (map entropy (seq (draws st) 64)) = Ok sig ->
  GEOC_pack_signature body sig = Ok packed ->
  GEOC_unpack packed = Ok h ->
  GEOC.guid h = g -> GEOC.signature h = sig ->
  coerce_bytes (GEOC.payload h) = Ok c ->
  PSS_verify (_signature_key (tp_base alice_pub)) (address g) sig = Ok tt ->
  fst (object_exchange alice bob alice_pub (PSecret s) data st)
  = Ok (g, (g, p)).
Proof.
  intros Ha Hb Hp3 Hc Hp He Hpk Hl Hs Hat Hu Hg Hsig Hpl Hv.
  assert (Hver : _verify bob (PThird alice_pub) sig (address g) = Ok true).
  { unfold _verify. rewrite Hb.
    rewrite (typecheck_thirdparty_accepts CS1 alice_pub Hp3).
    unfold _FrozenSHA512. rewrite Hl, Nat.eqb_refl.
    cbn [negb rbind attr_base]. rewrite Hv. reflexivity. }
  assert (Hdec : _decrypt CS1 (PSecret s) (GEOC.payload h) = Ok p).
  { destruct (encrypt_with_cipher s data p c Hp He)
      as (nonce & Hseed & Hk & Hn & ->).
    unfold _decrypt, AES_new_CTR. rewrite Hpl.
    cbn [rbind attr_seed attr_key]. rewrite Hseed. cbn [seed_to_int rbind].
    rewrite Hk. cbn [negb].
    destruct (N.leb_spec (2 ^ 128) (int_from_bytes_big nonce)); [lia|].
    cbn [rbind]. rewrite CtrMode_roundtrip. reflexivity. }
  unfold object_exchange, make_object, unpack_object, receive_object,
    _typecheck_secret, ciphersuite, bind, call, call_in, ret.
  rewrite Ha, Hb, Hc. cbn [_ciphersuite Z.eqb Pos.eqb negb].
  rewrite He. cbn [fst snd]. rewrite Hpk. cbn [fst snd].
  unfold _sign. rewrite Ha.
  unfold bind, lift, get_random_bytes, draw, _FrozenSHA512,
    _PSS_SALT_LENGTH.
  rewrite Hl, Nat.eqb_refl. cbn [negb heap trace draws].
  change SHA512_digest_size with 64. rewrite Hs. cbn [fst snd].
  rewrite Hat. cbn [fst snd]. rewrite Hu.
  cbn [fst snd]. rewrite Hg, Hsig, Hver. cbn [fst snd]. rewrite Hdec.
  reflexivity.
Qed.

(** X21. A handshake travels: when alice requests a handshake with bob,
    the envelope unpacks to the payload, guid and MAC that went in, bob's
    key decrypts the payload to the packed record and the record parses to
    its fields, then bob's [unpack_request] names alice as the author and
    his [receive_request] with alice's public identity returns the
    handshake with her guid, the target and the secret.  The two derive
    the MAC key independently; that they agree rests on the exchange
    commuting. *)
Theorem handshake_end_to_end_suite1 (alice bob : FirstPerson)
  (alice_pub bob_pub : ThirdPerson) (s : Secret) (target g : Guid)
  (inner payload body packed k : bytes) (o : GARQ.t) (st : state) :
  exchange_commutes ->
  fp_cls alice = CS1 -> fp_cls bob = CS1 ->
  public_of alice alice_pub -> public_of bob bob_pub ->
  GARQHandshake_pack (author_guid alice) target (PSecret s) = Ok inner ->
  OAEP_encrypt (_encryption_key (tp_base bob_pub)) inner (draws st)
  = Ok payload ->
  GARQ_pack (_author_guid (tp_base bob_pub)) payload 1 (address_algo alice)
  = Ok (g, body) ->
  _derive_shared alice (PThird bob_pub) = Ok k ->
  GARQ_pack_signature body (HMAC_SHA512 k (address g)) = Ok packed ->
  GARQ_unpack packed = Ok o ->
  GARQ.payload o = payload -> GARQ.guid o = g ->
  GARQ.signature o = HMAC_SHA512 k (address g) ->
  OAEP_decrypt (_encryption_key (fp_base bob)) payload = Ok inner ->
  GARQHandshake_unpack inner = Ok (author_guid alice, target, s) ->
  fst (handshake_exchange alice bob alice_pub bob_pub (PSecret s) target st)
  = Ok (g, author_guid alice, AsymHandshake (author_guid alice) target s).
Proof.
  intros Hx Ha Hb HpA HpB Hin Henc Hpk Hk Hat Hu Hpl Hg Hsig Hdec Hparse.
  pose proof (derive_shared_agree alice bob alice_pub bob_pub k
                Hx Ha Hb HpA HpB Hk) as Hk'.
  destruct HpA as (HcA & _ & _). destruct HpB as (HcB & _ & _).
  rewrite Ha in HcA. rewrite Hb in HcB. cbn [_3PID] in HcA, HcB.
  set (st1 := {| heap := heap st; trace := trace st; draws := draws st + 1 |}).
  assert (Hmade : make_request alice (PSecret s) target (PThird bob_pub) st
                  = (Ok (g, packed), st1)).
  { unfold make_request, _make_asym, _encrypt_asym, bind, lift, draw, ret,
      _mac, ciphersuite.
    rewrite Ha. rewrite (typecheck_thirdparty_accepts CS1 bob_pub HcB).
    rewrite Hin. cbn [attr_base fst snd draws _ciphersuite].
    rewrite Henc, Hpk. cbn [fst snd]. rewrite Hk, Hat. reflexivity. }
  assert (Hd : _decrypt_asym bob (GARQ.payload o) = Ok inner).
  { unfold _decrypt_asym. rewrite Hb, Hpl. exact Hdec. }
  pose proof (unpack_request_run bob packed st1 o inner Hu Hd) as Hun.
  cbv zeta in Hun. unfold as_handshake at 1 in Hun. rewrite Hparse in Hun.
  cbn [rbind cascade_outcome fst snd record_author] in Hun.
  unfold handshake_exchange, bind at 1. rewrite Hmade.
  unfold bind at 1. cbn [fst snd]. rewrite Hun.
  unfold receive_request. unfold bind, ret, lift, as_GARQ, call.
  rewrite Hb. rewrite (typecheck_thirdparty_accepts CS1 alice_pub HcA).
  cbn [heap fst snd]. rewrite lookup_alter_last.
  cbn [fst snd GARQ._plaintext GARQ.set_plaintext GARQ.signature GARQ.guid
       reraise].
  rewrite Hk', Hsig, Hg.
  unfold _verify_mac, bytes_eqb.
  rewrite bool_decide_eq_true_2 by reflexivity. reflexivity.
Qed.
End EndToEnd.

(** ** The further properties on concrete inputs *)

Lemma encrypt_preserves_length_witness :
  length (Wire.ct Wire.hello) = length Wire.hello.
Proof.
  apply (encrypt_preserves_length (E := Toy.env) (PSecret Toy.secret1)
           (DBytes Wire.hello) Wire.hello (Wire.ct Wire.hello));
    reflexivity.
Defined.

Lemma encrypt_prefix_witness :
  _encrypt (E := Toy.env) CS1 (PSecret Toy.secret1)
    (DBytes (take 3 Wire.hello)) = Ok (take 3 (Wire.ct Wire.hello)).
Proof.
  apply (encrypt_prefix (E := Toy.env) Toy.secret1 Wire.hello
           (Wire.ct Wire.hello) 3).
  reflexivity.
Defined.

Lemma encrypt_secret_reuse_witness :
  xor_bytes (Wire.ct Wire.hello) (Wire.ct (b "a longer plaintext")) =
  xor_bytes Wire.hello (b "a longer plaintext").
Proof.
  apply (encrypt_secret_reuse (E := Toy.env) Toy.secret1 Wire.hello
           (b "a longer plaintext")); reflexivity.
Defined.

Lemma encrypt_accepts_valid_secrets_witness :
  match _encrypt (E := Toy.env) CS1 (PSecret Toy.secret0)
          (DByteArray Wire.hello) with
  | Ok _ => valid_secret Toy.secret0 = true
  | Raise e =>
      valid_secret Toy.secret0 = false /\
      e = match seed Toy.secret0 with
          | None => TypeError
          | Some _ => ValueError
          end
  end.
Proof.
  apply (encrypt_accepts_valid_secrets (E := Toy.env) Toy.secret0
           (DByteArray Wire.hello) Wire.hello).
  reflexivity.
Defined.

Lemma mac_round_trip_witness :
  _verify_mac (E := Toy.env) CS1 [x01; x02] [x00; x00] [x0a; x0b]
  = Raise SecurityError.
Proof.
  destruct (mac_round_trip (E := Toy.env) (P := Wire.packers) CS1
              [x01; x02] [x0a; x0b]) as [_ H].
  apply H. vm_compute. discriminate.
Defined.

Lemma null_suite_accepts_everything_witness :
  fst (receive_object (E := Toy.env) Wire.null (PThird Wire.null_pub) PNone
         (PGEOC Toy.geoc_bad) Toy.st1) =
  Ok (GEOC.guid Toy.geoc_bad,
      b "[[ PLACEHOLDER DECRYPTED SYMMETRIC MESSAGE. Hello world! ]]") /\
  fst (receive_request (E := Toy.env) Wire.null (PThird Wire.null_pub)
         (PGARQ 0) Toy.st1) = Ok Toy.ack.
Proof.
  destruct (null_suite_accepts_everything (E := Toy.env) Wire.null
              Wire.null_pub PNone Toy.geoc_bad 0 Toy.ack Toy.st1
              eq_refl eq_refl) as [H1 H2].
  split; [exact H1 | apply H2; reflexivity].
Defined.

Lemma receive_object_argument_errors_witness :
  fst (receive_object (E := Toy.env) Toy.bob (PThird Wire.null_pub)
         (PSecret Toy.secret1) (PGEOC Toy.geoc_bad) Toy.st0)
  = Raise TypeError /\
  fst (receive_object (E := Toy.env) Toy.bob (PThird Toy.alice_pub)
         (PSecret Toy.secret1)
         (PGEOC {| GEOC.author := Toy.guid_a; GEOC.payload := DBytes [];
                   GEOC.guid := {| algo := 1; address := [x01] |};
                   GEOC.signature := [x01] |}) Toy.st0)
  = Raise ValueError.
Proof.
  split.
  - destruct (receive_object_argument_errors (E := Toy.env) Toy.bob
                (PThird Wire.null_pub) (PSecret Toy.secret1) Toy.geoc_bad
                Toy.st0) as [H _].
    apply H. intros t [= <-]. discriminate.
  - destruct (receive_object_argument_errors (E := Toy.env) Toy.bob
                (PThird Toy.alice_pub) (PSecret Toy.secret1)
                {| GEOC.author := Toy.guid_a; GEOC.payload := DBytes [];
                   GEOC.guid := {| algo := 1; address := [x01] |};
                   GEOC.signature := [x01] |} Toy.st0) as [_ H].
    apply H.
    + reflexivity.
    + exists Toy.alice_pub. split; reflexivity.
    + cbn. discriminate.
Defined.

Lemma receive_object_ignores_cipher_tag_witness :
  fst (make_object (E := Toy.env) Toy.alice
         (PSecret {| cipher := 0; key := repeat x01 32;
                     seed := Some [x05; xff] |})
         (DBytes Wire.hello) Toy.st0) = Raise TypeError.
Proof.
  destruct (receive_object_ignores_cipher_tag (E := Toy.env) Toy.alice
              (PThird Toy.alice_pub) Toy.geoc_bad Toy.st0 0 1
              (repeat x01 32) (Some [x05; xff]) (DBytes Wire.hello))
    as [_ H].
  apply H. discriminate.
Defined.

Lemma constructor_checks_arguments_first_witness :
  FirstPerson_init (E := Toy.env) CS1 None None (Algo 7) Toy.st0
  = (Raise ValueError, Toy.st0) /\
  FirstPerson_init (E := Toy.env) CS1 (Some Wire.public_bundle) None Default
    Toy.st0 = (Raise TypeError, Toy.st0).
Proof.
  split.
  - destruct (constructor_checks_arguments_first (E := Toy.env) CS1 None None
                (Algo 7) Toy.st0) as [H _].
    apply (H 7%Z eq_refl). apply (bool_decide_unpack _). vm_compute.
    exact I.
  - destruct (constructor_checks_arguments_first (E := Toy.env) CS1
                (Some Wire.public_bundle) None Default Toy.st0) as [_ H].
    apply (H 1%Z eq_refl). split; [discriminate | intros H0; congruence].
Defined.

Lemma generated_third_party_is_public_witness :
  _signature_key (fp_base Wire.generated) = KRsa 3 65537 (Some 1%N) /\
  exists pub,
    third_party Wire.generated = Ok pub /\
    _signature_key (tp_base pub) = KRsa 3 65537 None /\
    author_guid Wire.generated = _author_guid (tp_base pub).
Proof.
  destruct (generated_third_party_is_public (E := Toy.env) Default Toy.st0
              {| heap := []; trace := []; draws := 34 |} Wire.generated)
    as (H1 & _ & _ & _ & pub & n1 & e1 & d1 & n2 & e2 & d2 & gidc & H5 & _
        & H7 & _ & H9 & _ & _ & _ & H13 & H14 & _).
  { vm_compute. reflexivity. }
  split; [rewrite H1; reflexivity|].
  exists pub. rewrite H13, H14, H9.
  vm_compute in H5. injection H5 as <- <- _. auto.
Defined.

Lemma pack_keys_moduli_read_back_witness :
  exists sb eb xb,
    _pack_keys CS1 (Some Wire.public_bundle) =
    Ok (Some (bundle (KBytes sb) (KBytes eb) (KBytes xb))) /\
    length sb = 512 /\ int_from_bytes_big sb = 7%N /\
    length eb = 512 /\ int_from_bytes_big eb = 11%N /\
    xb = [x01; x02].
Proof.
  destruct (pack_keys_moduli_read_back Wire.public_bundle
              (Some (bundle (KBytes (N_to_bytes_big 512 7))
                            (KBytes (N_to_bytes_big 512 11))
                            (KBytes [x01; x02])))
              7 3 11 3 None None (KEcdhPublic [x01; x02]))
    as (sb & eb & xb & H1 & H2 & H3 & H4 & H5 & H6);
    try (vm_compute; reflexivity).
  exists sb, eb, xb. injection H6 as <-.
  split; [|auto]. rewrite <- H1. vm_compute. reflexivity.
Defined.

Lemma from_keys_other_errors_escape_witness :
  from_keys (E := Toy.env) CS1
    (Some (bundle (KRsa (2 ^ 4096) 3 None) (KRsa 11 3 None)
             (KEcdhPublic [x01; x02]))) 1 = Raise OverflowError /\
  from_keys (E := Toy.env) CS1
    (Some (bundle (KBytes [x50]) (KRsa 11 3 None) (KEcdhPublic [x01; x02]))) 1
  = Raise AttributeError.
Proof.
  split.
  - destruct (from_keys_other_errors_escape (E := Toy.env)
                (bundle (KRsa (2 ^ 4096) 3 None) (KRsa 11 3 None)
                   (KEcdhPublic [x01; x02])) 1) as [H _].
    apply (H (2 ^ 4096)%N 3%N None); [vm_compute; reflexivity | lia].
  - destruct (from_keys_other_errors_escape (E := Toy.env)
                (bundle (KBytes [x50]) (KRsa 11 3 None)
                   (KEcdhPublic [x01; x02])) 1) as (_ & H & _).
    apply (H [x50]). vm_compute. reflexivity.
Defined.

Lemma unpack_request_early_errors_witness :
  fst (unpack_request (E := Wire.env) Toy.bob [x01; x02] Toy.st0)
  = Raise ParseError.
Proof.
  destruct (unpack_request_early_errors (E := Wire.env) Toy.bob [x01; x02]
              Toy.st0 ParseError) as [H _].
  apply H. reflexivity.
Defined.

Lemma null_suite_unpack_ignores_payload_witness :
  fst (unpack_request (E := Toy.env) Wire.null [x00; x02; x0a; x0c] Toy.st0) =
  fst (unpack_request (E := Toy.env) Wire.null [x00; x03; x0b] Toy.st0).
Proof.
  apply (null_suite_unpack_ignores_payload (E := Toy.env) Wire.null
           [x00; x02; x0a; x0c] [x00; x03; x0b]
           {| GARQ.recipient := Toy.guid_of 1 [];
              GARQ.payload := [x02; x0a; x0c];
              GARQ.guid := Toy.guid_of 1 [x02; x0a; x0c];
              GARQ.signature := [x00]; GARQ._plaintext := None |}
           {| GARQ.recipient := Toy.guid_of 1 [];
              GARQ.payload := [x03; x0b];
              GARQ.guid := Toy.guid_of 1 [x03; x0b];
              GARQ.signature := [x00]; GARQ._plaintext := None |}
           Toy.st0); reflexivity.
Defined.

Lemma asymmetric_makers_check_recipient_witness :
  make_request (E := Wire.env) (P := Wire.packers) Toy.alice
    (PSecret Wire.secret) Toy.guid_c (PThird Wire.null_pub) Toy.st0
  = (Raise TypeError, Toy.st0) /\
  make_ack (E := Wire.env) (P := Wire.packers) Toy.alice Toy.guid_c
    (PBytes [x01]) 0 Toy.st0 = (Raise TypeError, Toy.st0).
Proof.
  split.
  - apply (asymmetric_makers_check_recipient (E := Wire.env)
             (P := Wire.packers) Toy.alice (PSecret Wire.secret)
             (PThird Wire.null_pub) Toy.guid_c 0 Toy.st0).
    intros t [= <-]. discriminate.
  - apply (asymmetric_makers_check_recipient (E := Wire.env)
             (P := Wire.packers) Toy.alice (PSecret Wire.secret)
             (PBytes [x01]) Toy.guid_c 0 Toy.st0).
    intros t Ht. discriminate Ht.
Defined.

Lemma bindings_are_signed_witness :
  exists body sig,
    GOBS_pack_signature (Packers := Wire.packers) body sig
    = Ok (snd Wire.binding) /\
    sig = address (fst Wire.binding) ++ Toy.salt0 /\
    _verify (E := Toy.env) Toy.bob (PThird Toy.alice_pub) sig
      (address (fst Wire.binding)) = Ok true.
Proof.
  destruct (bindings_are_signed (E := Toy.env) (P := Wire.packers) Toy.alice
              Toy.bob Toy.alice_pub Toy.guid_c None None Toy.st0
              eq_refl eq_refl) as [Hs _].
  destruct (Hs (fst Wire.binding) (snd Wire.binding)
              {| heap := []; trace := []; draws := 64 |})
    as (body & sig & Hp & Ha & _ & (_ & Hsig & _) & Hv).
  { vm_compute. reflexivity. }
  exists body, sig. split; [exact Ha|].
  vm_compute in Hsig. injection Hsig as <-.
  split; [vm_compute; reflexivity|].
  apply Hv. intros _. vm_compute. reflexivity.
Defined.

Lemma object_end_to_end_suite1_witness :
  fst (object_exchange (E := Toy.env) Toy.alice Toy.bob Toy.alice_pub
         (PSecret Toy.secret1) (DBytes Wire.hello) Toy.st0)
  = Ok (GEOC.guid Wire.handle, (GEOC.guid Wire.handle, Wire.hello)).
Proof.
  apply (object_end_to_end_suite1 (E := Toy.env) Toy.alice Toy.bob
           Toy.alice_pub Toy.secret1 (DBytes Wire.hello) Wire.hello
           (Wire.ct Wire.hello) (Wire.ct Wire.hello)
           (GEOC.signature Wire.handle)
           (Wire.ct Wire.hello ++ GEOC.signature Wire.handle)
           (GEOC.guid Wire.handle) Wire.handle Toy.st0);
    vm_compute; reflexivity.
Defined.

Lemma wire_exchange_commutes : exchange_commutes (E := Wire.env).
Proof. intros sk1 sk2. cbn. f_equal. apply xor_bytes_comm. Qed.

Lemma handshake_end_to_end_suite1_witness :
  fst (handshake_exchange (E := Wire.env) (P := Wire.packers) Toy.alice
         Toy.bob Toy.alice_pub Toy.bob_pub (PSecret Wire.secret) Toy.guid_c
         Toy.st0)
  = Ok (GARQ.guid Wire.envelope, Toy.guid_a,
        AsymHandshake Toy.guid_a Toy.guid_c Wire.secret).
Proof.
  apply (handshake_end_to_end_suite1 (E := Wire.env) (P := Wire.packers)
           Toy.alice Toy.bob Toy.alice_pub Toy.bob_pub Wire.secret
           Toy.guid_c (GARQ.guid Wire.envelope) Wire.inner Wire.payload
           Wire.payload (Wire.payload ++ Wire.mac) Wire.shared
           Wire.envelope Toy.st0);
    try exact wire_exchange_commutes;
    try (repeat split; reflexivity);
    vm_compute; reflexivity.
Defined.
